(** * Verification of [concept_prediction_sankey] (sankey_experiments.py)

    The builder turns two label sequences and a dense flow matrix into the
    node/link descriptor of a left-to-right Sankey diagram.  The embedding
    below follows the Python text statement by statement: the three link
    arrays are a piece of local state that the nested loops append to,
    [raise] and the partial operations of Python ([%], list indexing) live
    in an error monad, and the one piece of ambient state the function
    reads, the colorway of the charting library's default template, is a
    field of an explicit [world] that every computation threads. *)

From Stdlib Require Import String List Arith Lia Bool Floats Sorted.
From Stdlib Require ZArith Ascii.
Import ListNotations.
Local Open Scope string_scope.
Local Open Scope list_scope.

(** ** Python effects *)

Module Py.

(** The exceptions the body of the function can reach. *)
Inductive exn : Type :=
| ValueError (msg : string)
| IndexError
| ZeroDivisionError.

Inductive outcome (A : Type) : Type :=
| Returns (a : A)
| Raises (e : exn).
Arguments Returns {A} a.
Arguments Raises {A} e.

(** Ambient state: [go.Figure().layout.template.layout.colorway], that is
    the colorway of the default template ([None] when it has none). *)
Record world : Type := { default_colorway : option (list string) }.

Definition M (A : Type) : Type := world -> outcome A * world.

Definition ret {A} (a : A) : M A := fun w => (Returns a, w).

Definition raise {A} (e : exn) : M A := fun w => (Raises e, w).

Definition bind {A B} (m : M A) (k : A -> M B) : M B :=
  fun w =>
    match m w with
    | (Returns a, w') => k a w'
    | (Raises e, w') => (Raises e, w')
    end.

Definition run {A} (m : M A) (w : world) : outcome A := fst (m w).

(** [go.Figure().layout.template.layout.colorway] *)
Definition template_colorway : M (option (list string)) :=
  fun w => (Returns (default_colorway w), w).

(** [x or []] on an optional sequence: a falsy left operand ([None] or an
    empty sequence) yields the right one. *)
Definition or_empty {A} (x : option (list A)) : list A :=
  match x with
  | Some (a :: l) => a :: l
  | Some [] | None => []
  end.

(** [not xs] on a sequence. *)
Definition is_falsy {A} (xs : list A) : bool :=
  match xs with [] => true | _ :: _ => false end.

(** [a % b] on non-negative integers. *)
Definition mod_ (a b : nat) : M nat :=
  if (b =? 0)%nat then raise ZeroDivisionError else ret (a mod b).

(** [xs[k]] for a non-negative index. *)
Definition getitem {A} (xs : list A) (k : nat) : M A :=
  match nth_error xs k with
  | Some x => ret x
  | None => raise IndexError
  end.

(** [for i, x in enumerate(xs): s = body(i, x, s)], counting from [i]. *)
Fixpoint for_enumerate {A St} (body : nat -> A -> St -> M St)
         (i : nat) (xs : list A) (s : St) : M St :=
  match xs with
  | [] => ret s
  | x :: xs' => bind (body i x s) (for_enumerate body (S i) xs')
  end.

(** [[f(x) for x in xs]] *)
Fixpoint comprehension {A B} (f : A -> M B) (xs : list A) : M (list B) :=
  match xs with
  | [] => ret []
  | x :: xs' =>
      bind (f x) (fun y => bind (comprehension f xs') (fun ys => ret (y :: ys)))
  end.

End Py.

Import Py.

Notation "x <- m ;; k" := (bind m (fun x => k))
  (at level 61, m at next level, right associativity).

(** ** The figure descriptor *)

Record line_t : Type := { line_color : string; line_width : float }.

Record node_t : Type :=
  { pad : nat;
    thickness : nat;
    line : line_t;
    label : list string;
    color : list string }.

(** [link_color] is unset when the trace is built and assigned afterwards. *)
Record link_t : Type :=
  { link_source : list nat;
    link_target : list nat;
    link_value : list float;
    link_color : option (list string) }.

Record layout_t : Type :=
  { title_text : option string;
    font_size : option nat;
    plot_bgcolor : option string;
    paper_bgcolor : option string;
    font_color : option string }.

(** The layout of a figure that has just been built. *)
Definition empty_layout : layout_t :=
  {| title_text := None;
     font_size := None;
     plot_bgcolor := None;
     paper_bgcolor := None;
     font_color := None |}.

Record Figure : Type := { node : node_t; link : link_t; layout : layout_t }.

(** [fig.update_layout(...)] *)
Definition update_layout (fig : Figure) (l : layout_t) : Figure :=
  {| node := node fig; link := link fig; layout := l |}.

(** [fig.data[0].link.color = c] *)
Definition set_link_color (fig : Figure) (c : list string) : Figure :=
  {| node := node fig;
     link := {| link_source := link_source (link fig);
                link_target := link_target (link fig);
                link_value := link_value (link fig);
                link_color := Some c |};
     layout := layout fig |}.

(** ** The builder *)

(** The three local lists [source], [target] and [value]. *)
Record arrays : Type :=
  { source : list nat; target : list nat; value : list float }.

Definition no_links : arrays := {| source := []; target := []; value := [] |}.

(** [v == 0] on a float: true on both zeros, false on NaN. *)
Definition is_zero (v : float) : bool := PrimFloat.eqb v 0%float.

(** [float(v)]: the cells have the declared type [float], on which the
    conversion returns its argument. *)
Definition float_ (v : float) : float := v.

(** Body of the inner loop, lines 301-305. *)
Definition cell_body (n_concepts i j : nat) (v : float) (a : arrays)
  : M arrays :=
  if is_zero v then ret a
  else ret {| source := source a ++ [i];
              target := target a ++ [n_concepts + j];
              value := value a ++ [float_ v] |}.

(** Body of the outer loop, lines 298-305. *)
Definition row_body (concepts predictions : list string)
           (i : nat) (row : list float) (a : arrays) : M arrays :=
  if negb (length row =? length predictions)%nat
  then raise (ValueError "each flow row must match number of predictions")
  else for_enumerate (cell_body (length concepts) i) 0 row a.

Definition fallback_palette : list string :=
  ["#4c78a8"; "#72b7b2"; "#f58518"; "#e45756"; "#54a24b"].

(** Lines 307-313: the palette that the color loop indexes. *)
Definition resolve_concept_colors (concept_colors : option (list string))
  : M (list string) :=
  concept_colors <-
    match concept_colors with
    | None => cw <- template_colorway ;; ret (or_empty cw)
    | Some c => ret c
    end ;;
  let concept_colors :=
    if is_falsy concept_colors then fallback_palette else concept_colors in
  ret concept_colors.

Definition prediction_color_default : string := "#111827".

Definition concept_prediction_sankey
           (concepts predictions : list string)
           (flows : list (list float))
           (concept_colors : option (list string))
           (prediction_color : string) : M Figure :=
  if negb (length flows =? length concepts)%nat
  then raise (ValueError "flows rows must match number of concepts")
  else
    let labels := concepts ++ predictions in
    a <- for_enumerate (row_body concepts predictions) 0 flows no_links ;;
    concept_colors <- resolve_concept_colors concept_colors ;;
    concept_color_list <-
      comprehension
        (fun i => k <- mod_ i (length concept_colors) ;;
                  getitem concept_colors k)
        (seq 0 (length concepts)) ;;
    let node_colors :=
      concept_color_list ++ repeat prediction_color (length predictions) in
    link_colors <- comprehension (getitem concept_color_list) (source a) ;;
    let fig :=
      {| node := {| pad := 18;
                    thickness := 18;
                    line := {| line_color := "black";
                               line_width := 0.5%float |};
                    label := labels;
                    color := node_colors |};
         link := {| link_source := source a;
                    link_target := target a;
                    link_value := value a;
                    link_color := None |};
         layout := empty_layout |} in
    let fig :=
      update_layout fig
        {| title_text := Some "Concept -> Predictions";
           font_size := Some 11;
           plot_bgcolor := Some "white";
           paper_bgcolor := Some "white";
           font_color := Some "black" |} in
    ret (set_link_color fig link_colors).

(** ** Functional description of the result

    What the text of the specification says the builder computes, written
    with list functions; the theorems relate the loops above to it. *)

(** [enumerate(xs)] counting from [k]. *)
Definition enumerate_from {A} (k : nat) (xs : list A) : list (nat * A) :=
  combine (seq k (length xs)) xs.

(** A cell with its coordinates, and a link: (row, column, magnitude) and
    (source, target, value). *)
Definition cell : Type := (nat * nat * float)%type.
Definition link_of : Type := (nat * nat * float)%type.

Definition src (l : link_of) : nat := fst (fst l).
Definition tgt (l : link_of) : nat := snd (fst l).
Definition val (l : link_of) : float := snd l.

Definition cells_of_row (i : nat) (row : list float) : list cell :=
  map (fun jv => (i, fst jv, snd jv)) (enumerate_from 0 row).

(** The cells of the matrix in row-major order, rows counted from [i0]. *)
Definition cells_from (i0 : nat) (flows : list (list float)) : list cell :=
  flat_map (fun ir => cells_of_row (fst ir) (snd ir)) (enumerate_from i0 flows).

Definition cells (flows : list (list float)) : list cell := cells_from 0 flows.

Definition nonzero (c : cell) : bool := negb (is_zero (snd c)).

(** One link per non-zero cell, in the order of the cells. *)
Definition emit (n_concepts : nat) (cs : list cell) : list link_of :=
  map (fun c => (fst (fst c), n_concepts + snd (fst c), float_ (snd c)))
      (filter nonzero cs).

Definition row_major_links (n_concepts : nat) (flows : list (list float))
  : list link_of :=
  emit n_concepts (cells flows).

(** Row-major order of coordinates: an earlier row, or the same row and an
    earlier column. *)
Definition cell_lt (c1 c2 : cell) : Prop :=
  fst (fst c1) < fst (fst c2) \/
  (fst (fst c1) = fst (fst c2) /\ snd (fst c1) < snd (fst c2)).

Definition link_lt (l1 l2 : link_of) : Prop :=
  src l1 < src l2 \/ (src l1 = src l2 /\ tgt l1 < tgt l2).

(** The links of a descriptor, read off its three parallel arrays. *)
Definition links (fig : Figure) : list link_of :=
  combine (combine (link_source (link fig)) (link_target (link fig)))
          (link_value (link fig)).

(** The number of matrix cells [v] with [v != 0]. *)
Definition count_nonzero (flows : list (list float)) : nat :=
  length (filter (fun v => negb (is_zero v)) (concat flows)).

(** The palette after lines 307-313. *)
Definition palette (concept_colors : option (list string)) (w : world)
  : list string :=
  let c := match concept_colors with
           | None => or_empty (default_colorway w)
           | Some c => c
           end in
  if is_falsy c then fallback_palette else c.

Definition cycle_colors (p : list string) (n : nat) : list string :=
  map (fun i => nth (i mod length p) p "") (seq 0 n).

Definition sankey_model (concepts predictions : list string)
           (flows : list (list float)) (p : list string)
           (prediction_color : string) : Figure :=
  let ls := row_major_links (length concepts) flows in
  let ccl := cycle_colors p (length concepts) in
  {| node := {| pad := 18;
                thickness := 18;
                line := {| line_color := "black"; line_width := 0.5%float |};
                label := concepts ++ predictions;
                color := ccl ++ repeat prediction_color (length predictions) |};
     link := {| link_source := map src ls;
                link_target := map tgt ls;
                link_value := map val ls;
                link_color := Some (map (fun s => nth s ccl "") (map src ls)) |};
     layout := {| title_text := Some "Concept -> Predictions";
                  font_size := Some 11;
                  plot_bgcolor := Some "white";
                  paper_bgcolor := Some "white";
                  font_color := Some "black" |} |}.

(** ** Sample inputs *)

Definition no_template : world := {| default_colorway := None |}.

Definition template_with_colorway : world :=
  {| default_colorway := Some ["#636efa"; "#EF553B"; "#00cc96"] |}.

Definition AB : list string := ["A"; "B"].
Definition XY : list string := ["X"; "Y"].

Definition diag_1_2 : list (list float) :=
  [[1%float; 0%float]; [0%float; 2%float]].

(** ** Shapes *)

Definition shape_ok (concepts predictions : list string)
           (flows : list (list float)) : Prop :=
  length flows = length concepts /\
  Forall (fun row => length row = length predictions) flows.

Definition row_count_mismatch (concepts : list string)
           (flows : list (list float)) : Prop :=
  length flows <> length concepts.

Definition row_length_mismatch (predictions : list string)
           (flows : list (list float)) : Prop :=
  Exists (fun row => length row <> length predictions) flows.

Definition shape_mismatch (concepts predictions : list string)
           (flows : list (list float)) : Prop :=
  row_count_mismatch concepts flows \/ row_length_mismatch predictions flows.

Definition msg_rows : string := "flows rows must match number of concepts".
Definition msg_row_length : string :=
  "each flow row must match number of predictions".

(** Appending a batch of links to the three arrays. *)
Definition push (a : arrays) (ls : list link_of) : arrays :=
  {| source := source a ++ map src ls;
     target := target a ++ map tgt ls;
     value := value a ++ map val ls |}.

(** ** The energy figures: [colored_links_sankey] and [styled_sankey]

    Both take the document that [load_energy_sankey_data] returns, the
    result of [json.loads], and read it with subscripts; nothing is checked
    beforehand, so the exceptions are those of the subscripts.  What the
    charting library does with the values it is handed is not modelled. *)

Module Energy.

Import ZArith Ascii.

(** What [json.loads] returns.  The items of a dict are in insertion order
    and have distinct keys. *)
#[local] Unset Elimination Schemes.
Inductive json : Type :=
| JNull
| JBool (b : bool)
| JInt (z : Z)
| JFloat (f : float)
| JStr (s : string)
| JList (l : list json)
| JDict (items : list (string * json)).
#[local] Set Elimination Schemes.

Inductive key : Type := KStr (s : string) | KInt (z : Z).

(** [LoadError] stands for whatever the network request or the parser
    raises. *)
Inductive exn : Type :=
| KeyError (k : key)
| IndexError
| TypeError
| AttributeError
| LoadError (name : string).

Inductive outcome (A : Type) : Type :=
| Returns (a : A)
| Raises (e : exn).
Arguments Returns {A} a.
Arguments Raises {A} e.

Definition bind {A B} (m : outcome A) (k : A -> outcome B) : outcome B :=
  match m with
  | Returns a => k a
  | Raises e => Raises e
  end.

Notation "x <~ m ;; k" := (bind m (fun x => k))
  (at level 61, m at next level, right associativity).

Fixpoint lookup (k : string) (items : list (string * json)) : option json :=
  match items with
  | [] => None
  | (k', v) :: items' => if String.eqb k k' then Some v else lookup k items'
  end.

(** [v[k]] for a string [k]. *)
Definition getitem_str (v : json) (k : string) : outcome json :=
  match v with
  | JDict items =>
      match lookup k items with
      | Some x => Returns x
      | None => Raises (KeyError (KStr k))
      end
  | _ => Raises TypeError
  end.

(** [xs[i]] on a sequence: a negative index counts from the end. *)
Definition index {A} (xs : list A) (i : Z) : outcome A :=
  let n := Z.of_nat (length xs) in
  let i' := if (i <? 0)%Z then (i + n)%Z else i in
  if ((0 <=? i') && (i' <? n))%Z
  then match nth_error xs (Z.to_nat i') with
       | Some x => Returns x
       | None => Raises IndexError
       end
  else Raises IndexError.

Definition chars (s : string) : list json :=
  map (fun c => JStr (String c EmptyString)) (list_ascii_of_string s).

(** [v[i]] for an integer [i]. *)
Definition getitem_int (v : json) (i : Z) : outcome json :=
  match v with
  | JList l => index l i
  | JStr s => index (chars s) i
  | JDict _ => Raises (KeyError (KInt i))
  | _ => Raises TypeError
  end.

(** [for x in v]: the elements of a list, the characters of a string, the
    keys of a dict. *)
Definition iter (v : json) : outcome (list json) :=
  match v with
  | JList l => Returns l
  | JStr s => Returns (chars s)
  | JDict items => Returns (map (fun kv => JStr (fst kv)) items)
  | _ => Raises TypeError
  end.

(** [[f(x) for x in xs]] *)
Fixpoint comprehension {A B} (f : A -> outcome B) (xs : list A)
  : outcome (list B) :=
  match xs with
  | [] => Returns []
  | x :: xs' =>
      y <~ f x ;; ys <~ comprehension f xs' ;; Returns (y :: ys)
  end.

(** [nodes[src]] where [src] is a value of the document: only an integer,
    or a boolean, which is one, indexes a list. *)
Definition getitem_value {A} (xs : list A) (src : json) : outcome A :=
  match src with
  | JInt z => index xs z
  | JBool b => index xs (if b then 1 else 0)%Z
  | _ => Raises TypeError
  end.

(** [s.replace(old, new)]: every occurrence of [old], scanning from the
    left without overlap; [skip] counts the characters of an occurrence
    that are still to be dropped. *)
Fixpoint replace_from (skip : nat) (s old new : string) : string :=
  match s with
  | EmptyString => EmptyString
  | String c s' =>
      match skip with
      | S k => replace_from k s' old new
      | O =>
          if String.prefix old s
          then new ++ replace_from (String.length old - 1) s' old new
          else String c (replace_from 0 s' old new)
      end
  end.

Fixpoint interleave (s new : string) : string :=
  match s with
  | EmptyString => EmptyString
  | String c s' => String c (new ++ interleave s' new)
  end.

Definition replace (s old new : string) : string :=
  match old with
  | EmptyString => new ++ interleave s new
  | String _ _ => replace_from 0 s old new
  end.

(** [v.replace(old, new)] on a value of the document. *)
Definition replace_method (v : json) (old new : string) : outcome json :=
  match v with
  | JStr s => Returns (JStr (replace s old new))
  | _ => Raises AttributeError
  end.

(** [color == "magenta"] *)
Definition is_magenta (color : json) : bool :=
  match color with
  | JStr s => String.eqb s "magenta"
  | _ => false
  end.

Definition magenta_rgba : string := "rgba(255,0,255, 0.8)".

(** ["rgba(255,0,255, 0.8)" if color == "magenta" else color] *)
Definition recolor (color : json) : json :=
  if is_magenta color then JStr magenta_rgba else color.

Record node_t : Type :=
  { pad : nat;
    thickness : nat;
    line : line_t;
    label : json;
    color : json }.

Record link_t : Type :=
  { source : json;
    target : json;
    value : json;
    link_label : json;
    link_color : option json }.

Record layout_t : Type :=
  { title_text : option string;
    font_size : option nat;
    font_color : option string;
    hovermode : option string;
    plot_bgcolor : option string;
    paper_bgcolor : option string }.

Record Figure : Type :=
  { valueformat : string;
    valuesuffix : string;
    node : node_t;
    link : link_t;
    layout : layout_t }.

Definition black_line : line_t :=
  {| line_color := "black"; line_width := 0.5%float |}.

Section Builders.

(** [str] on a float, and the outcome of [load_energy_sankey_data()]. *)
Variable str : float -> string.
Variable load_energy_sankey_data : outcome json.

(** [data = load_energy_sankey_data()] when [data is None]. *)
Definition data_or_load (data : option json) : outcome json :=
  match data with
  | None => load_energy_sankey_data
  | Some d => Returns d
  end.

(** [data["data"][0][group][field]] *)
Definition field (data : json) (group name : string) : outcome json :=
  traces <~ getitem_str data "data" ;;
  trace <~ getitem_int traces 0 ;;
  g <~ getitem_str trace group ;;
  getitem_str g name.

Definition colored_links_sankey (data : option json) (opacity : float)
  : outcome Figure :=
  data <~ data_or_load data ;;
  colors <~ field data "node" "color" ;;
  colors <~ iter colors ;;
  let node_colors := map recolor colors in
  sources <~ field data "link" "source" ;;
  sources <~ iter sources ;;
  link_colors <~
    comprehension
      (fun src => c <~ getitem_value node_colors src ;;
                  replace_method c "0.8" (str opacity))
      sources ;;
  node_label <~ field data "node" "label" ;;
  link_source <~ field data "link" "source" ;;
  link_target <~ field data "link" "target" ;;
  link_value <~ field data "link" "value" ;;
  link_label <~ field data "link" "label" ;;
  Returns
    {| valueformat := ".0f";
       valuesuffix := "TWh";
       node := {| pad := 15;
                  thickness := 15;
                  line := black_line;
                  label := node_label;
                  color := JList node_colors |};
       link := {| source := link_source;
                  target := link_target;
                  value := link_value;
                  link_label := link_label;
                  link_color := Some (JList link_colors) |};
       layout := {| title_text := Some "Energy forecast for 2050";
                    font_size := Some 10;
                    font_color := None;
                    hovermode := None;
                    plot_bgcolor := None;
                    paper_bgcolor := None |} |}.

Definition styled_sankey (data : option json) : outcome Figure :=
  data <~ data_or_load data ;;
  node_label <~ field data "node" "label" ;;
  node_color <~ field data "node" "color" ;;
  link_source <~ field data "link" "source" ;;
  link_target <~ field data "link" "target" ;;
  link_value <~ field data "link" "value" ;;
  link_label <~ field data "link" "label" ;;
  Returns
    {| valueformat := ".0f";
       valuesuffix := "TWh";
       node := {| pad := 15;
                  thickness := 15;
                  line := black_line;
                  label := node_label;
                  color := node_color |};
       link := {| source := link_source;
                  target := link_target;
                  value := link_value;
                  link_label := link_label;
                  link_color := None |};
       layout := {| title_text := Some "Energy forecast for 2050";
                    font_size := Some 10;
                    font_color := Some "white";
                    hovermode := Some "x";
                    plot_bgcolor := Some "black";
                    paper_bgcolor := Some "black" |} |}.

End Builders.

(** A document of the shape of the energy mock: one trace with the six
    fields, other keys beside them. *)
Definition sample_document : json :=
  JDict
    [("data",
      JList
        [JDict
           [("type", JStr "sankey");
            ("node",
             JDict [("pad", JInt 15);
                    ("label", JList [JStr "Solar"; JStr "Grid"; JStr "Home"]);
                    ("color", JList [JStr "rgba(31, 119, 180, 0.8)";
                                     JStr "magenta";
                                     JStr "#2ca02c"])]);
            ("link",
             JDict [("source", JList [JInt 0; JInt 1; JInt (-1)]);
                    ("target", JList [JInt 1; JInt 2; JInt 0]);
                    ("value", JList [JFloat 3.5%float; JInt 2; JInt 1]);
                    ("label", JList [JStr "a"; JStr "b"; JStr "c"])])]]);
     ("layout", JDict [])].

(** The smallest document with given node colors and link sources. *)
Definition document (colors : list string) (sources : list Z) : json :=
  JDict
    [("data",
      JList
        [JDict
           [("node", JDict [("label", JList []);
                            ("color", JList (map JStr colors))]);
            ("link", JDict [("source", JList (map JInt sources));
                            ("target", JList []);
                            ("value", JList []);
                            ("label", JList [])])]])].

(** Stand-ins for the two parameters on concrete runs. *)
Definition str_0_4 (_ : float) : string := "0.4".
Definition str_0_8 (_ : float) : string := "0.8".
Definition no_network : outcome json := Raises (LoadError "URLError").

(** ** Vocabulary for the properties of the energy figures *)

(** Whether [old] occurs in [s]. *)
Fixpoint occurs (old s : string) : bool :=
  String.prefix old s ||
  match s with
  | EmptyString => false
  | String _ s' => occurs old s'
  end.

(** The indices a list of [n] elements accepts, and the position an
    accepted index denotes. *)
Definition in_range (n : nat) (z : Z) : Prop :=
  (- Z.of_nat n <= z < Z.of_nat n)%Z.

Definition position (n : nat) (z : Z) : nat :=
  Z.to_nat (if (z <? 0)%Z then (z + Z.of_nat n)%Z else z).

(** [recolor] on the text of a color. *)
Definition recolor_str (c : string) : string :=
  if String.eqb c "magenta" then magenta_rgba else c.

(** A document whose first trace has the six fields, the node colors being
    strings and the link sources integers. *)
Definition conforms (data : json) (colors : list string) (sources : list Z)
  : Prop :=
  field data "node" "color" = Returns (JList (map JStr colors)) /\
  field data "link" "source" = Returns (JList (map JInt sources)) /\
  (exists v, field data "node" "label" = Returns v) /\
  (exists v, field data "link" "target" = Returns v) /\
  (exists v, field data "link" "value" = Returns v) /\
  (exists v, field data "link" "label" = Returns v).

End Energy.

(** ** Observing a call *)

(** Assigning the colorway of the default template, which any Python code
    may do: this is how a computation changes the ambient state.  The
    builder contains no such statement. *)
Definition set_default_colorway (c : option (list string)) : M unit :=
  fun _ => (Returns tt, {| default_colorway := c |}).

(** The arrays of the descriptor: node labels and colors, link sources,
    targets, values and colors. *)
Definition arrays_of (fig : Figure)
  : list string * list string * list nat * list nat * list float *
    option (list string) :=
  (label (node fig), color (node fig), link_source (link fig),
   link_target (link fig), link_value (link fig), link_color (link fig)).

(** What a caller gets from a call: these arrays, or the exception. *)
Definition observed (o : outcome Figure)
  : outcome (list string * list string * list nat * list nat * list float *
             option (list string)) :=
  match o with
  | Returns fig => Returns (arrays_of fig)
  | Raises e => Raises e
  end.


(** ** The checks of the charting library

    Modelled from the spec: section 7 leaves malformed color strings "to
    the external rendering library to reject".  The library is not part of
    this repository, so its test on a color string is a parameter,
    [accepts_color].  [go.Sankey] applies it to [node.color] when the trace
    is built (lines 322-331), the assignment of line 341 applies it to
    [link.color], and a rejected element raises [ValueError].  The other
    values handed over (labels, indices, magnitudes, the fixed styling) are
    not restricted. *)


Section Library.

Variable accepts_color : string -> bool.



End Library.


(** ** Lists *)

Section ListFacts.

Context {A : Type}.

Lemma enumerate_from_cons (k : nat) (x : A) (xs : list A) :
  enumerate_from k (x :: xs) = (k, x) :: enumerate_from (S k) xs.
Proof. reflexivity. Qed.

Lemma enumerate_from_length (k : nat) (xs : list A) :
  length (enumerate_from k xs) = length xs.
Proof.
  unfold enumerate_from. rewrite length_combine, length_seq.
  apply Nat.min_id.
Qed.

Lemma enumerate_from_snd (k : nat) (xs : list A) :
  map snd (enumerate_from k xs) = xs.
Proof.
  revert k. induction xs as [|x xs IH]; intros k; [reflexivity|].
  rewrite enumerate_from_cons. simpl. now rewrite IH.
Qed.

Lemma in_enumerate_from (k0 k : nat) (x : A) (xs : list A) :
  In (k, x) (enumerate_from k0 xs) <->
  k0 <= k /\ nth_error xs (k - k0) = Some x.
Proof.
  revert k0. induction xs as [|y xs IH]; intros k0.
  - simpl. split; [tauto|]. intros [_ H].
    destruct (k - k0); discriminate.
  - rewrite enumerate_from_cons. simpl. rewrite IH. split.
    + intros [E | [Hle Hn]].
      * inversion E; subst. rewrite Nat.sub_diag. split; [lia|reflexivity].
      * split; [lia|].
        replace (k - k0) with (S (k - S k0)) by lia. exact Hn.
    + intros [Hle Hn]. destruct (Nat.eq_dec k k0) as [->|Hne].
      * rewrite Nat.sub_diag in Hn. simpl in Hn. left. congruence.
      * right. split; [lia|].
        replace (k - k0) with (S (k - S k0)) in Hn by lia. exact Hn.
Qed.

End ListFacts.

Lemma combine_projections (ls : list link_of) :
  combine (combine (map src ls) (map tgt ls)) (map val ls) = ls.
Proof.
  induction ls as [|[[s t] v] ls IH]; [reflexivity|].
  simpl. now rewrite IH.
Qed.

Lemma push_nil (a : arrays) : push a [] = a.
Proof. destruct a. unfold push. simpl. now rewrite !app_nil_r. Qed.

Lemma push_push (a : arrays) (l1 l2 : list link_of) :
  push (push a l1) l2 = push a (l1 ++ l2).
Proof. unfold push. simpl. now rewrite !map_app, !app_assoc. Qed.

Lemma emit_app (n : nat) (c1 c2 : list cell) :
  emit n (c1 ++ c2) = emit n c1 ++ emit n c2.
Proof. unfold emit. now rewrite filter_app, map_app. Qed.

Lemma cells_from_cons (i : nat) (row : list float) (rows : list (list float)) :
  cells_from i (row :: rows) = cells_of_row i row ++ cells_from (S i) rows.
Proof. reflexivity. Qed.

(** ** The loops *)

Lemma cell_loop (n i : nat) (row : list float) :
  forall (j : nat) (a : arrays) (w : world),
    for_enumerate (cell_body n i) j row a w =
    (Returns
       (push a (emit n (map (fun jv => (i, fst jv, snd jv))
                            (enumerate_from j row)))), w).
Proof.
  induction row as [|v row IH]; intros j a w.
  - simpl. unfold ret. now rewrite push_nil.
  - rewrite enumerate_from_cons. cbn [for_enumerate map]. unfold bind.
    unfold cell_body at 1. unfold emit. cbn [filter fst snd].
    unfold nonzero at 1. cbn [snd].
    destruct (is_zero v) eqn:Hz; cbn [negb]; unfold ret; rewrite IH.
    + reflexivity.
    + f_equal. f_equal. fold (emit n). unfold push. cbn.
      now rewrite <- !app_assoc.
Qed.

Lemma row_loop_ok (concepts predictions : list string)
      (rows : list (list float)) :
  Forall (fun row => length row = length predictions) rows ->
  forall (i : nat) (a : arrays) (w : world),
    for_enumerate (row_body concepts predictions) i rows a w =
    (Returns (push a (emit (length concepts) (cells_from i rows))), w).
Proof.
  induction 1 as [|row rows Hrow _ IH]; intros i a w.
  - simpl. unfold ret. now rewrite push_nil.
  - cbn [for_enumerate]. unfold bind. unfold row_body at 1.
    rewrite Hrow, Nat.eqb_refl. cbn [negb].
    rewrite cell_loop, IH, push_push, cells_from_cons, emit_app.
    reflexivity.
Qed.

Lemma row_loop_bad (concepts predictions : list string)
      (rows : list (list float)) :
  row_length_mismatch predictions rows ->
  forall (i : nat) (a : arrays) (w : world),
    for_enumerate (row_body concepts predictions) i rows a w =
    (Raises (ValueError msg_row_length), w).
Proof.
  unfold row_length_mismatch.
  induction rows as [|row rows IH]; intros Hex i a w.
  - inversion Hex.
  - cbn [for_enumerate]. unfold bind. unfold row_body at 1.
    destruct (Nat.eqb_spec (length row) (length predictions)) as [Heq|Hne].
    + cbn [negb]. rewrite cell_loop. apply IH.
      inversion Hex; subst; [contradiction|assumption].
    + reflexivity.
Qed.

(** ** The palette *)

Lemma resolve_concept_colors_eq (cc : option (list string)) (w : world) :
  resolve_concept_colors cc w = (Returns (palette cc w), w).
Proof. destruct cc; reflexivity. Qed.

Lemma palette_nonempty (cc : option (list string)) (w : world) :
  palette cc w <> [].
Proof.
  unfold palette.
  destruct (match cc with
            | Some c => c
            | None => or_empty (default_colorway w)
            end); simpl; discriminate.
Qed.

Lemma bind_returns {A B} (m : M A) (k : A -> M B) (w w' : world) (a : A) :
  m w = (Returns a, w') -> bind m k w = k a w'.
Proof. intros H. unfold bind. now rewrite H. Qed.

Lemma mod_returns (a b : nat) (w : world) :
  b <> 0 -> mod_ a b w = (Returns (a mod b), w).
Proof.
  intros Hb. unfold mod_.
  destruct (Nat.eqb_spec b 0); [contradiction|reflexivity].
Qed.

Lemma getitem_returns {A} (xs : list A) (k : nat) (d : A) (w : world) :
  k < length xs -> getitem xs k w = (Returns (nth k xs d), w).
Proof.
  intros Hk. unfold getitem. now rewrite (nth_error_nth' xs d Hk).
Qed.

Lemma comprehension_returns {A B} (f : A -> M B) (g : A -> B)
      (xs : list A) (w : world) :
  Forall (fun x => f x w = (Returns (g x), w)) xs ->
  comprehension f xs w = (Returns (map g xs), w).
Proof.
  induction 1 as [|x xs Hx _ IH]; [reflexivity|].
  cbn [comprehension map].
  rewrite (bind_returns _ _ _ _ _ Hx), (bind_returns _ _ _ _ _ IH).
  reflexivity.
Qed.

Lemma color_loop (p : list string) (w : world) (n : nat) :
  p <> [] ->
  comprehension (fun i => k <- mod_ i (length p) ;; getitem p k) (seq 0 n) w =
  (Returns (cycle_colors p n), w).
Proof.
  intros Hp. assert (Hlen : length p <> 0) by (destruct p; simpl; congruence).
  unfold cycle_colors. apply comprehension_returns, Forall_forall.
  intros i _. rewrite (bind_returns _ _ _ _ _ (mod_returns i _ w Hlen)).
  apply getitem_returns, Nat.mod_upper_bound, Hlen.
Qed.

Lemma link_color_loop (ccl : list string) (w : world) (srcs : list nat) :
  Forall (fun s => s < length ccl) srcs ->
  comprehension (getitem ccl) srcs w =
  (Returns (map (fun s => nth s ccl "") srcs), w).
Proof.
  intros H. apply comprehension_returns.
  eapply Forall_impl; [|exact H].
  intros s Hs. now apply getitem_returns.
Qed.

Lemma cycle_colors_length (p : list string) (n : nat) :
  length (cycle_colors p n) = n.
Proof. unfold cycle_colors. now rewrite length_map, length_seq. Qed.

(** ** The cells of the matrix *)

Lemma in_cells_of_row (i i' j : nat) (v : float) (row : list float) :
  In (i', j, v) (cells_of_row i row) <-> i' = i /\ nth_error row j = Some v.
Proof.
  unfold cells_of_row. rewrite in_map_iff. split.
  - intros [[j' v'] [E Hin]]. simpl in E. inversion E; subst.
    apply in_enumerate_from in Hin. rewrite Nat.sub_0_r in Hin. tauto.
  - intros [-> Hn]. exists (j, v). split; [reflexivity|].
    apply in_enumerate_from. rewrite Nat.sub_0_r. split; [lia|exact Hn].
Qed.

Lemma in_cells_from (i0 i j : nat) (v : float) (rows : list (list float)) :
  In (i, j, v) (cells_from i0 rows) <->
  i0 <= i /\
  exists row, nth_error rows (i - i0) = Some row /\ nth_error row j = Some v.
Proof.
  unfold cells_from. rewrite in_flat_map. split.
  - intros [[i' row] [Hin Hc]]. simpl in Hc.
    apply in_cells_of_row in Hc. destruct Hc as [-> Hj].
    apply in_enumerate_from in Hin. destruct Hin as [Hle Hrow].
    split; [exact Hle|]. now exists row.
  - intros [Hle [row [Hrow Hj]]]. exists (i, row). split.
    + apply in_enumerate_from. now split.
    + simpl. apply in_cells_of_row. now split.
Qed.

Lemma cells_from_values (i0 : nat) (rows : list (list float)) :
  map snd (cells_from i0 rows) = concat rows.
Proof.
  revert i0. induction rows as [|row rows IH]; intros i0; [reflexivity|].
  rewrite cells_from_cons, map_app, IH. simpl. f_equal.
  unfold cells_of_row. rewrite map_map. simpl.
  apply enumerate_from_snd.
Qed.

Lemma in_emit (n : nat) (cs : list cell) (l : link_of) :
  In l (emit n cs) <->
  exists i j v,
    In (i, j, v) cs /\ is_zero v = false /\ l = (i, n + j, v).
Proof.
  unfold emit. rewrite in_map_iff. split.
  - intros [[[i j] v] [E Hin]]. apply filter_In in Hin.
    destruct Hin as [Hin Hnz]. unfold nonzero in Hnz. simpl in *.
    exists i, j, v. repeat split; [exact Hin| |now symmetry].
    now apply negb_true_iff.
  - intros [i [j [v [Hin [Hz ->]]]]]. exists (i, j, v).
    split; [reflexivity|]. apply filter_In. split; [exact Hin|].
    unfold nonzero. simpl. now rewrite Hz.
Qed.

Lemma in_row_major_links (n : nat) (flows : list (list float)) (l : link_of) :
  In l (row_major_links n flows) <->
  exists i j v row,
    nth_error flows i = Some row /\ nth_error row j = Some v /\
    is_zero v = false /\ l = (i, n + j, v).
Proof.
  unfold row_major_links, cells. rewrite in_emit. split.
  - intros [i [j [v [Hin [Hz ->]]]]]. apply in_cells_from in Hin.
    destruct Hin as [_ [row [Hrow Hj]]]. rewrite Nat.sub_0_r in Hrow.
    now exists i, j, v, row.
  - intros [i [j [v [row [Hrow [Hj [Hz ->]]]]]]]. exists i, j, v.
    repeat split; [|exact Hz]. apply in_cells_from.
    split; [lia|]. exists row. now rewrite Nat.sub_0_r.
Qed.

Lemma emit_length (n : nat) (flows : list (list float)) :
  length (row_major_links n flows) = count_nonzero flows.
Proof.
  unfold row_major_links, emit, count_nonzero, cells.
  rewrite length_map, <- (cells_from_values 0 flows), filter_map_swap.
  now rewrite length_map.
Qed.

Lemma link_sources_bounded (n : nat) (flows : list (list float)) :
  Forall (fun l => src l < length flows) (row_major_links n flows).
Proof.
  apply Forall_forall. intros l Hl. apply in_row_major_links in Hl.
  destruct Hl as [i [j [v [row [Hrow [_ [_ ->]]]]]]]. unfold src. simpl.
  apply nth_error_Some. congruence.
Qed.

Lemma link_targets_bounded (n np : nat) (flows : list (list float)) :
  Forall (fun row => length row = np) flows ->
  Forall (fun l => n <= tgt l < n + np) (row_major_links n flows).
Proof.
  intros Hshape. apply Forall_forall. intros l Hl.
  apply in_row_major_links in Hl.
  destruct Hl as [i [j [v [row [Hrow [Hj [_ ->]]]]]]]. unfold tgt. simpl.
  assert (Hlen : length row = np).
  { apply nth_error_In in Hrow.
    exact (proj1 (Forall_forall _ _) Hshape row Hrow). }
  assert (j < length row) by (apply nth_error_Some; congruence).
  lia.
Qed.

(** ** The builder and its functional description *)

Lemma shape_dec (concepts predictions : list string)
      (flows : list (list float)) :
  shape_ok concepts predictions flows \/
  shape_mismatch concepts predictions flows.
Proof.
  unfold shape_ok, shape_mismatch, row_count_mismatch, row_length_mismatch.
  destruct (Nat.eq_dec (length flows) (length concepts)) as [E|N];
    [|right; now left].
  destruct (Forall_Exists_dec (fun row => length row = length predictions)
              (fun row => Nat.eq_dec (length row) (length predictions)) flows)
    as [F|X].
  - left. now split.
  - right. now right.
Qed.


Lemma sankey_returns (concepts predictions : list string)
      (flows : list (list float)) (cc : option (list string))
      (pc : string) (w : world) :
  shape_ok concepts predictions flows ->
  concept_prediction_sankey concepts predictions flows cc pc w =
  (Returns (sankey_model concepts predictions flows (palette cc w) pc), w).
Proof.
  intros [Hlen Hrows]. unfold concept_prediction_sankey.
  rewrite Hlen, Nat.eqb_refl. cbn [negb].
  rewrite (bind_returns _ _ _ _ _
             (row_loop_ok concepts predictions flows Hrows 0 no_links w)).
  rewrite (bind_returns _ _ _ _ _ (resolve_concept_colors_eq cc w)).
  rewrite (bind_returns _ _ _ _ _
             (color_loop _ w (length concepts) (palette_nonempty cc w))).
  fold (cells flows). fold (row_major_links (length concepts) flows).
  cbn [push no_links source target value app].
  assert (Hsrc : Forall
                   (fun s => s < length (cycle_colors (palette cc w)
                                                      (length concepts)))
                   (map src (row_major_links (length concepts) flows))).
  { apply Forall_map. rewrite cycle_colors_length, <- Hlen.
    apply link_sources_bounded. }
  rewrite (bind_returns _ _ _ _ _ (link_color_loop _ w _ Hsrc)).
  reflexivity.
Qed.

Lemma sankey_raises_rows (concepts predictions : list string)
      (flows : list (list float)) (cc : option (list string))
      (pc : string) (w : world) :
  row_count_mismatch concepts flows ->
  concept_prediction_sankey concepts predictions flows cc pc w =
  (Raises (ValueError msg_rows), w).
Proof.
  intros Hne. unfold concept_prediction_sankey.
  destruct (Nat.eqb_spec (length flows) (length concepts));
    [contradiction|reflexivity].
Qed.

Lemma sankey_raises_row_length (concepts predictions : list string)
      (flows : list (list float)) (cc : option (list string))
      (pc : string) (w : world) :
  length flows = length concepts ->
  row_length_mismatch predictions flows ->
  concept_prediction_sankey concepts predictions flows cc pc w =
  (Raises (ValueError msg_row_length), w).
Proof.
  intros Hlen Hbad. unfold concept_prediction_sankey.
  rewrite Hlen, Nat.eqb_refl. cbn [negb]. unfold bind at 1.
  now rewrite (row_loop_bad concepts predictions flows Hbad 0 no_links w).
Qed.

(** ** Order of the emitted links *)

Section Sortedness.

Context {A B : Type} (R : A -> A -> Prop) (R' : B -> B -> Prop).

Lemma StronglySorted_map (f : A -> B) (xs : list A) :
  (forall a b, R a b -> R' (f a) (f b)) ->
  StronglySorted R xs -> StronglySorted R' (map f xs).
Proof.
  intros Hmono. induction 1 as [|a xs _ IH Hall]; simpl; constructor.
  - exact IH.
  - apply Forall_map. eapply Forall_impl; [|exact Hall].
    intros b. apply Hmono.
Qed.

Lemma StronglySorted_filter (f : A -> bool) (xs : list A) :
  StronglySorted R xs -> StronglySorted R (filter f xs).
Proof.
  induction 1 as [|a xs _ IH Hall]; simpl; [constructor|].
  destruct (f a); [|exact IH]. constructor; [exact IH|].
  apply Forall_forall. intros b Hb. apply filter_In in Hb.
  exact (proj1 (Forall_forall _ _) Hall b (proj1 Hb)).
Qed.

Lemma StronglySorted_app (xs ys : list A) :
  StronglySorted R xs -> StronglySorted R ys ->
  (forall a b, In a xs -> In b ys -> R a b) ->
  StronglySorted R (xs ++ ys).
Proof.
  intros Hxs Hys Hcross. induction Hxs as [|a xs _ IH Hall]; [exact Hys|].
  simpl. constructor.
  - apply IH. intros a' b Ha' Hb. apply Hcross; [now right|exact Hb].
  - apply Forall_app. split; [exact Hall|].
    apply Forall_forall. intros b Hb. apply Hcross; [now left|exact Hb].
Qed.

End Sortedness.

Lemma enumerate_from_sorted {A} (k : nat) (xs : list A) :
  StronglySorted (fun a b => fst a < fst b) (enumerate_from k xs).
Proof.
  revert k. induction xs as [|x xs IH]; intros k; [constructor|].
  rewrite enumerate_from_cons. constructor; [apply IH|].
  apply Forall_forall. intros [k' y] Hin.
  apply in_enumerate_from in Hin. simpl. lia.
Qed.

Lemma cells_of_row_sorted (i : nat) (row : list float) :
  StronglySorted cell_lt (cells_of_row i row).
Proof.
  unfold cells_of_row.
  apply (StronglySorted_map (fun a b : nat * float => fst a < fst b));
    [|apply enumerate_from_sorted].
  intros a b Hab. right. simpl. now split.
Qed.

Lemma cells_from_sorted (rows : list (list float)) :
  forall i0, StronglySorted cell_lt (cells_from i0 rows).
Proof.
  induction rows as [|row rows IH]; intros i0; [constructor|].
  rewrite cells_from_cons. apply StronglySorted_app.
  - apply cells_of_row_sorted.
  - apply IH.
  - intros [[i j] v] [[i' j'] v'] Ha Hb.
    apply in_cells_of_row in Ha. apply in_cells_from in Hb.
    left. simpl. lia.
Qed.

Lemma row_major_links_sorted (n : nat) (flows : list (list float)) :
  StronglySorted link_lt (row_major_links n flows).
Proof.
  unfold row_major_links, emit.
  apply (StronglySorted_map cell_lt);
    [|apply StronglySorted_filter, cells_from_sorted].
  intros [[i j] v] [[i' j'] v']. unfold cell_lt, link_lt, src, tgt. simpl.
  lia.
Qed.

(** ** Floats *)


(** ** Facts about the functional description *)

Lemma model_links (concepts predictions : list string)
      (flows : list (list float)) (p : list string) (pc : string) :
  links (sankey_model concepts predictions flows p pc) =
  row_major_links (length concepts) flows.
Proof. unfold links. simpl. apply combine_projections. Qed.

Lemma cycle_colors_nth (p : list string) (n i : nat) :
  i < n ->
  nth_error (cycle_colors p n) i = Some (nth (i mod length p) p "").
Proof.
  intros Hi. unfold cycle_colors.
  rewrite nth_error_map, nth_error_nth' with (d := 0);
    [|now rewrite length_seq].
  rewrite seq_nth by exact Hi. reflexivity.
Qed.

(** ** Runs on concrete inputs *)

Example run_diagonal :
  run (concept_prediction_sankey AB XY diag_1_2 None
         prediction_color_default) no_template =
  Returns
    {| node := {| pad := 18;
                  thickness := 18;
                  line := {| line_color := "black";
                             line_width := 0.5%float |};
                  label := ["A"; "B"; "X"; "Y"];
                  color := ["#4c78a8"; "#72b7b2"; "#111827"; "#111827"] |};
       link := {| link_source := [0; 1];
                  link_target := [2; 3];
                  link_value := [1%float; 2%float];
                  link_color := Some ["#4c78a8"; "#72b7b2"] |};
       layout := {| title_text := Some "Concept -> Predictions";
                    font_size := Some 11;
                    plot_bgcolor := Some "white";
                    paper_bgcolor := Some "white";
                    font_color := Some "black" |} |}.
Proof. reflexivity. Qed.

(** A ragged second row is found only when the loop reaches it. *)
Example run_ragged_row :
  run (concept_prediction_sankey AB XY
         [[1%float; 0%float]; [0%float; 2%float; 3%float]] None
         prediction_color_default) no_template =
  Raises (ValueError msg_row_length).
Proof. reflexivity. Qed.

(** A wrong row count is reported before any row is inspected. *)
Example run_wrong_row_count_and_ragged :
  run (concept_prediction_sankey AB XY [[1%float]] None
         prediction_color_default) no_template =
  Raises (ValueError msg_rows).
Proof. reflexivity. Qed.

(** Negative and NaN cells are emitted, both zeros are skipped. *)
Example run_negative_nan_zero :
  exists fig,
    run (concept_prediction_sankey AB XY
           [[(-3.5)%float; (-0)%float]; [nan; 0%float]] (Some ["red"])
           prediction_color_default) no_template = Returns fig /\
    link_source (link fig) = [0; 1] /\
    link_target (link fig) = [2; 2] /\
    link_value (link fig) = [(-3.5)%float; nan] /\
    link_color (link fig) = Some ["red"; "red"].
Proof. eexists. repeat split; reflexivity. Qed.

(** An empty palette falls back to the five fixed colors, which cycle. *)
Example run_empty_palette_cycles :
  exists fig,
    run (concept_prediction_sankey ["a"; "b"; "c"; "d"; "e"; "f"] []
           [[]; []; []; []; []; []] (Some [])
           prediction_color_default) template_with_colorway = Returns fig /\
    color (node fig) =
    ["#4c78a8"; "#72b7b2"; "#f58518"; "#e45756"; "#54a24b"; "#4c78a8"] /\
    links fig = [].
Proof. eexists. repeat split; reflexivity. Qed.

(** ** The palette and the template *)

Lemma palette_given (c : list string) (w w' : world) :
  palette (Some c) w = palette (Some c) w'.
Proof. reflexivity. Qed.

Lemma palette_absent (w w' : world) :
  or_empty (default_colorway w) = or_empty (default_colorway w') ->
  palette None w = palette None w'.
Proof. unfold palette. now intros ->. Qed.

Lemma builder_keeps_world (concepts predictions : list string)
      (flows : list (list float)) (cc : option (list string))
      (pc : string) (w : world) :
  snd (concept_prediction_sankey concepts predictions flows cc pc w) = w.
Proof.
  destruct (shape_dec concepts predictions flows) as [Hok|Hbad].
  - now rewrite sankey_returns.
  - destruct (Nat.eq_dec (length flows) (length concepts)) as [Hlen|Hne].
    + destruct Hbad as [Hc|Hr]; [contradiction|].
      now rewrite sankey_raises_row_length.
    + now rewrite sankey_raises_rows.
Qed.

Lemma builder_run_depends_on_palette (concepts predictions : list string)
      (flows : list (list float)) (cc : option (list string))
      (pc : string) (w w' : world) :
  palette cc w = palette cc w' ->
  run (concept_prediction_sankey concepts predictions flows cc pc) w =
  run (concept_prediction_sankey concepts predictions flows cc pc) w'.
Proof.
  intros Hp. unfold run.
  destruct (shape_dec concepts predictions flows) as [Hok|Hbad].
  - rewrite !sankey_returns by exact Hok. now rewrite Hp.
  - destruct (Nat.eq_dec (length flows) (length concepts)) as [Hlen|Hne].
    + destruct Hbad as [Hc|Hr]; [contradiction|].
      now rewrite !(sankey_raises_row_length _ _ _ _ _ _ Hlen Hr).
    + now rewrite !(sankey_raises_rows _ predictions _ _ _ _ Hne).
Qed.

(** The ambient state can be changed, though not by the builder. *)
Example assignment_changes_world :
  snd (set_default_colorway (Some ["red"]) no_template) <> no_template.
Proof. discriminate. Qed.

(** ** The builder inside the library *)





(** * The claims *)

Ltac by_model :=
  eexists; split;
  [unfold run; rewrite sankey_returns by assumption; reflexivity|].

(** C1: on a matrix with one row per concept and one column per prediction,
    each of the source, target and value arrays has as many entries as the
    matrix has non-zero cells, and no link sits at the coordinates of a
    zero cell. *)
Theorem link_count_equals_nonzero_cells
        (concepts predictions : list string) (flows : list (list float))
        (cc : option (list string)) (pc : string) (w : world) :
  shape_ok concepts predictions flows ->
  exists fig,
    run (concept_prediction_sankey concepts predictions flows cc pc) w =
    Returns fig /\
    length (link_source (link fig)) = count_nonzero flows /\
    length (link_target (link fig)) = count_nonzero flows /\
    length (link_value (link fig)) = count_nonzero flows /\
    length (links fig) = count_nonzero flows /\
    (forall i j v row,
        nth_error flows i = Some row -> nth_error row j = Some v ->
        is_zero v = true ->
        forall l, In l (links fig) ->
                  ~ (src l = i /\ tgt l = length concepts + j)).
Proof.
  intros Hshape. by_model.
  rewrite model_links. cbn [sankey_model link link_source link_target link_value].
  rewrite !length_map, emit_length. repeat split.
  intros i j v row Hrow Hj Hz l Hl [Hs Ht].
  apply in_row_major_links in Hl.
  destruct Hl as [i' [j' [v' [row' [Hrow' [Hj' [Hnz ->]]]]]]].
  unfold src, tgt in Hs, Ht. cbn [fst snd] in Hs, Ht.
  apply Nat.add_cancel_l in Ht. subst i' j'.
  rewrite Hrow in Hrow'. inversion Hrow'; subst row'.
  rewrite Hj in Hj'. inversion Hj'; subst v'. congruence.
Qed.

Lemma link_count_equals_nonzero_cells_witness :
  shape_ok AB XY diag_1_2 /\
  exists fig,
    run (concept_prediction_sankey AB XY diag_1_2 None
           prediction_color_default) no_template = Returns fig /\
    length (link_source (link fig)) = count_nonzero diag_1_2 /\
    length (link_target (link fig)) = count_nonzero diag_1_2 /\
    length (link_value (link fig)) = count_nonzero diag_1_2 /\
    length (links fig) = count_nonzero diag_1_2 /\
    (forall i j v row,
        nth_error diag_1_2 i = Some row -> nth_error row j = Some v ->
        is_zero v = true ->
        forall l, In l (links fig) ->
                  ~ (src l = i /\ tgt l = length AB + j)).
Proof.
  split.
  - split; [reflexivity|]. repeat constructor.
  - apply (link_count_equals_nonzero_cells AB XY diag_1_2 None
             prediction_color_default no_template).
    split; [reflexivity|]. repeat constructor.
Defined.

(** C2: on a well-shaped matrix every emitted link goes from a concept node
    to a prediction node: its source index is below the number of concepts,
    its target index is at least that number and below the number of
    nodes, which is the number of concepts plus the number of predictions. *)
Theorem links_are_bipartite
        (concepts predictions : list string) (flows : list (list float))
        (cc : option (list string)) (pc : string) (w : world) :
  shape_ok concepts predictions flows ->
  exists fig,
    run (concept_prediction_sankey concepts predictions flows cc pc) w =
    Returns fig /\
    length (label (node fig)) = length concepts + length predictions /\
    Forall (fun l => src l < length concepts /\
                     length concepts <= tgt l < length (label (node fig)))
           (links fig) /\
    Forall (fun s => s < length concepts) (link_source (link fig)) /\
    Forall (fun t => length concepts <= t < length (label (node fig)))
           (link_target (link fig)).
Proof.
  intros Hshape. by_model. destruct Hshape as [Hlen Hrows].
  rewrite model_links.
  cbn [sankey_model node label link link_source link_target].
  rewrite length_app.
  pose proof (link_sources_bounded (length concepts) flows) as Hs.
  pose proof (link_targets_bounded (length concepts) _ flows Hrows) as Ht.
  rewrite Hlen in Hs.
  split; [reflexivity|]. split; [|split].
  - apply Forall_forall. intros l Hl.
    pose proof (proj1 (Forall_forall _ _) Hs l Hl) as Hsl.
    pose proof (proj1 (Forall_forall _ _) Ht l Hl) as Htl.
    cbv beta in Hsl, Htl. lia.
  - apply Forall_map. exact Hs.
  - apply Forall_map. exact Ht.
Qed.

Lemma links_are_bipartite_witness :
  shape_ok AB XY diag_1_2 /\
  exists fig,
    run (concept_prediction_sankey AB XY diag_1_2 None
           prediction_color_default) template_with_colorway = Returns fig /\
    length (label (node fig)) = length AB + length XY /\
    Forall (fun l => src l < length AB /\
                     length AB <= tgt l < length (label (node fig)))
           (links fig) /\
    Forall (fun s => s < length AB) (link_source (link fig)) /\
    Forall (fun t => length AB <= t < length (label (node fig)))
           (link_target (link fig)).
Proof.
  split.
  - split; [reflexivity|]. repeat constructor.
  - apply (links_are_bipartite AB XY diag_1_2 None prediction_color_default
             template_with_colorway).
    split; [reflexivity|]. repeat constructor.
Defined.

(** C3: when the matrix has a number of rows other than the number of
    concepts, or some row has a length other than the number of
    predictions, the call raises [ValueError] and returns no descriptor;
    the message names the row count when that is what differs and the row
    length otherwise. *)
Theorem shape_mismatch_raises
        (concepts predictions : list string) (flows : list (list float))
        (cc : option (list string)) (pc : string) (w : world) :
  shape_mismatch concepts predictions flows ->
  exists msg,
    run (concept_prediction_sankey concepts predictions flows cc pc) w =
    Raises (ValueError msg) /\
    (row_count_mismatch concepts flows -> msg = msg_rows) /\
    (~ row_count_mismatch concepts flows -> msg = msg_row_length) /\
    (forall fig,
        run (concept_prediction_sankey concepts predictions flows cc pc) w <>
        Returns fig).
Proof.
  intros Hbad. unfold run.
  destruct (Nat.eq_dec (length flows) (length concepts)) as [Hlen|Hne].
  - destruct Hbad as [Hc|Hr]; [contradiction|].
    rewrite (sankey_raises_row_length _ _ _ cc pc w Hlen Hr).
    exists msg_row_length. repeat split; try discriminate.
    intros Hc. contradiction.
  - rewrite (sankey_raises_rows _ predictions _ cc pc w Hne).
    exists msg_rows. repeat split; try discriminate.
    intros Hc. contradiction.
Qed.

Lemma shape_mismatch_raises_witness :
  shape_mismatch AB XY
    [[1%float; 0%float]; [0%float; 2%float]; [3%float; 4%float]] /\
  exists msg,
    run (concept_prediction_sankey AB XY
           [[1%float; 0%float]; [0%float; 2%float]; [3%float; 4%float]]
           None prediction_color_default) no_template =
    Raises (ValueError msg) /\
    (row_count_mismatch AB
       [[1%float; 0%float]; [0%float; 2%float]; [3%float; 4%float]] ->
     msg = msg_rows) /\
    (~ row_count_mismatch AB
         [[1%float; 0%float]; [0%float; 2%float]; [3%float; 4%float]] ->
     msg = msg_row_length) /\
    (forall fig,
        run (concept_prediction_sankey AB XY
               [[1%float; 0%float]; [0%float; 2%float]; [3%float; 4%float]]
               None prediction_color_default) no_template <>
        Returns fig).
Proof.
  split.
  - left. unfold row_count_mismatch. simpl. lia.
  - apply (shape_mismatch_raises AB XY
             [[1%float; 0%float]; [0%float; 2%float]; [3%float; 4%float]]
             None prediction_color_default no_template).
    left. unfold row_count_mismatch. simpl. lia.
Defined.

(** C4: for concepts A, B, predictions X, Y and the matrix [[1,0],[0,2]]
    the builder emits exactly the two links 0 -> 2 with value 1 and
    1 -> 3 with value 2, whatever the palette and the template. *)
Theorem diagonal_example_links
        (cc : option (list string)) (pc : string) (w : world) :
  exists fig,
    run (concept_prediction_sankey AB XY diag_1_2 cc pc) w = Returns fig /\
    link_source (link fig) = [0; 1] /\
    link_target (link fig) = [2; 3] /\
    link_value (link fig) = [1%float; 2%float] /\
    links fig = [(0, 2, 1%float); (1, 3, 2%float)].
Proof.
  assert (Hshape : shape_ok AB XY diag_1_2)
    by (split; [reflexivity|repeat constructor]).
  by_model. repeat split; reflexivity.
Qed.

(** C5: on a well-shaped matrix the node of concept [i] has the color at
    position [i mod len(palette)] of the palette in use, every prediction
    node has [prediction_color], and the color of each link is the color
    of its source node; with a palette of two colors and five concepts the
    concept nodes are colored first, second, first, second, first. *)
Theorem colors_cycle_and_links_inherit
        (concepts predictions : list string) (flows : list (list float))
        (cc : option (list string)) (pc : string) (w : world) :
  shape_ok concepts predictions flows ->
  exists fig,
    run (concept_prediction_sankey concepts predictions flows cc pc) w =
    Returns fig /\
    (forall i, i < length concepts ->
       exists c,
         nth_error (palette cc w) (i mod length (palette cc w)) = Some c /\
         nth_error (color (node fig)) i = Some c) /\
    (forall c0 c1, cc = Some [c0; c1] -> length concepts = 5 ->
       firstn 5 (color (node fig)) = [c0; c1; c0; c1; c0]) /\
    (forall j, j < length predictions ->
       nth_error (color (node fig)) (length concepts + j) = Some pc) /\
    (exists lc,
        link_color (link fig) = Some lc /\
        length lc = length (link_source (link fig)) /\
        forall k s,
          nth_error (link_source (link fig)) k = Some s ->
          exists c,
            nth_error lc k = Some c /\
            nth_error (color (node fig)) s = Some c).
Proof.
  intros Hshape. by_model. destruct Hshape as [Hlen Hrows].
  cbn [sankey_model node color link link_source link_color].
  set (p := palette cc w).
  set (ccl := cycle_colors p (length concepts)).
  assert (Hccl : length ccl = length concepts)
    by apply cycle_colors_length.
  assert (Hp : length p <> 0).
  { pose proof (palette_nonempty cc w) as Hne. fold p in Hne.
    destruct p; simpl; congruence. }
  split; [|split; [|split]].
  - intros i Hi. exists (nth (i mod length p) p ""). split.
    + apply nth_error_nth', Nat.mod_upper_bound, Hp.
    + rewrite nth_error_app1 by lia. now apply cycle_colors_nth.
  - intros c0 c1 -> H5. subst ccl p. rewrite H5. reflexivity.
  - intros j Hj. rewrite nth_error_app2 by lia.
    rewrite Hccl, Nat.add_comm, Nat.add_sub.
    rewrite nth_error_repeat by exact Hj. reflexivity.
  - eexists. split; [reflexivity|]. split; [now rewrite length_map|].
    intros k s Hk. exists (nth s ccl ""). split.
    + rewrite nth_error_map, Hk. reflexivity.
    + assert (Hs : s < length concepts).
      { apply nth_error_In, in_map_iff in Hk.
        destruct Hk as [l [<- Hl]]. rewrite <- Hlen.
        exact (proj1 (Forall_forall _ _)
                     (link_sources_bounded (length concepts) flows) l Hl). }
      rewrite nth_error_app1 by lia. apply nth_error_nth'. lia.
Qed.

Lemma colors_cycle_and_links_inherit_witness :
  shape_ok ["c0"; "c1"; "c2"; "c3"; "c4"] ["X"]
    [[1%float]; [0%float]; [2%float]; [3%float]; [4%float]] /\
  exists fig,
    run (concept_prediction_sankey ["c0"; "c1"; "c2"; "c3"; "c4"] ["X"]
           [[1%float]; [0%float]; [2%float]; [3%float]; [4%float]]
           (Some ["red"; "blue"]) prediction_color_default) no_template =
    Returns fig /\
    (forall i, i < length ["c0"; "c1"; "c2"; "c3"; "c4"] ->
       exists c,
         nth_error (palette (Some ["red"; "blue"]) no_template)
           (i mod length (palette (Some ["red"; "blue"]) no_template)) =
         Some c /\
         nth_error (color (node fig)) i = Some c) /\
    (forall c0 c1, Some ["red"; "blue"] = Some [c0; c1] ->
       length ["c0"; "c1"; "c2"; "c3"; "c4"] = 5 ->
       firstn 5 (color (node fig)) = [c0; c1; c0; c1; c0]) /\
    (forall j, j < length ["X"] ->
       nth_error (color (node fig))
         (length ["c0"; "c1"; "c2"; "c3"; "c4"] + j) =
       Some prediction_color_default) /\
    (exists lc,
        link_color (link fig) = Some lc /\
        length lc = length (link_source (link fig)) /\
        forall k s,
          nth_error (link_source (link fig)) k = Some s ->
          exists c,
            nth_error lc k = Some c /\
            nth_error (color (node fig)) s = Some c).
Proof.
  split.
  - split; [reflexivity|]. repeat constructor.
  - apply (colors_cycle_and_links_inherit
             ["c0"; "c1"; "c2"; "c3"; "c4"] ["X"]
             [[1%float]; [0%float]; [2%float]; [3%float]; [4%float]]
             (Some ["red"; "blue"]) prediction_color_default no_template).
    split; [reflexivity|]. repeat constructor.
Defined.

(** C6: on a well-shaped matrix the emitted links are those of the
    row-major traversal: the link list is the list of non-zero cells in
    row-major order, the cell at row [i] and column [j] with magnitude [v]
    giving the link from [i] to [len(concepts) + j] with value [float(v)].
    Hence the links are strictly increasing in (source, target), and a link
    is present exactly when its cell is non-zero. *)
Theorem links_follow_row_major_order
        (concepts predictions : list string) (flows : list (list float))
        (cc : option (list string)) (pc : string) (w : world) :
  shape_ok concepts predictions flows ->
  exists fig,
    run (concept_prediction_sankey concepts predictions flows cc pc) w =
    Returns fig /\
    links fig = row_major_links (length concepts) flows /\
    link_source (link fig) = map src (links fig) /\
    link_target (link fig) = map tgt (links fig) /\
    link_value (link fig) = map val (links fig) /\
    StronglySorted link_lt (links fig) /\
    (forall i j v,
        In (i, length concepts + j, float_ v) (links fig) <->
        exists row,
          nth_error flows i = Some row /\ nth_error row j = Some v /\
          is_zero v = false).
Proof.
  intros Hshape. by_model. rewrite model_links.
  cbn [sankey_model link link_source link_target link_value].
  repeat split; try reflexivity.
  - apply row_major_links_sorted.
  - intros Hin. apply in_row_major_links in Hin.
    destruct Hin as [i' [j' [v' [row [Hrow [Hj [Hz E]]]]]]].
    unfold float_ in E. inversion E as [[Hi Hjj Hv]].
    apply Nat.add_cancel_l in Hjj. subst i' j' v'. now exists row.
  - intros [row [Hrow [Hj Hz]]]. apply in_row_major_links.
    now exists i, j, v, row.
Qed.

Lemma links_follow_row_major_order_witness :
  shape_ok AB XY diag_1_2 /\
  exists fig,
    run (concept_prediction_sankey AB XY diag_1_2 None
           prediction_color_default) no_template = Returns fig /\
    links fig = row_major_links (length AB) diag_1_2 /\
    link_source (link fig) = map src (links fig) /\
    link_target (link fig) = map tgt (links fig) /\
    link_value (link fig) = map val (links fig) /\
    StronglySorted link_lt (links fig) /\
    (forall i j v,
        In (i, length AB + j, float_ v) (links fig) <->
        exists row,
          nth_error diag_1_2 i = Some row /\ nth_error row j = Some v /\
          is_zero v = false).
Proof.
  split.
  - split; [reflexivity|]. repeat constructor.
  - apply (links_follow_row_major_order AB XY diag_1_2 None
             prediction_color_default no_template).
    split; [reflexivity|]. repeat constructor.
Defined.

(** C7, as stated, fails: the same five arguments give different node and
    link colors under two default templates when [concept_colors] is
    absent. *)
Lemma same_arguments_other_template_other_colors :
  exists fig1 fig2,
    run (concept_prediction_sankey AB XY diag_1_2 None
           prediction_color_default) no_template = Returns fig1 /\
    run (concept_prediction_sankey AB XY diag_1_2 None
           prediction_color_default) template_with_colorway = Returns fig2 /\
    color (node fig1) = ["#4c78a8"; "#72b7b2"; "#111827"; "#111827"] /\
    color (node fig2) = ["#636efa"; "#EF553B"; "#111827"; "#111827"] /\
    observed (Returns fig1) <> observed (Returns fig2).
Proof.
  eexists. eexists. split; [reflexivity|]. split; [reflexivity|].
  split; [reflexivity|]. split; [reflexivity|].
  unfold observed, arrays_of. cbn [node color]. intros H.
  inversion H.
Qed.

(** C7, as the code has it: a call leaves the ambient state as it found it,
    and what it gives back, the arrays of the descriptor or the exception,
    is determined by the five arguments and the colorway of the default
    template.  The colorway counts only through [colorway or []], and only
    when [concept_colors] is absent: with [concept_colors] given, empty or
    not, any two templates give the same arrays. *)
Theorem arrays_determined_by_arguments_and_colorway
        (concepts predictions : list string) (flows : list (list float))
        (cc : option (list string)) (pc : string) (w w' : world) :
  snd (concept_prediction_sankey concepts predictions flows cc pc w) = w /\
  (or_empty (default_colorway w) = or_empty (default_colorway w') ->
   observed (run (concept_prediction_sankey concepts predictions flows
                    cc pc) w) =
   observed (run (concept_prediction_sankey concepts predictions flows
                    cc pc) w')) /\
  (cc <> None ->
   observed (run (concept_prediction_sankey concepts predictions flows
                    cc pc) w) =
   observed (run (concept_prediction_sankey concepts predictions flows
                    cc pc) w')).
Proof.
  split; [apply builder_keeps_world|]. split.
  - intros Hcw. f_equal. apply builder_run_depends_on_palette.
    destruct cc as [c|]; [apply palette_given|now apply palette_absent].
  - intros Hcc. f_equal. apply builder_run_depends_on_palette.
    destruct cc as [c|]; [apply palette_given|contradiction].
Qed.

(** C8, as the code has it: an absent [concept_colors] is first replaced by
    the colorway of the default template, or by an empty list when the
    template has none; a palette that is then empty is replaced by the
    fixed five-color palette.  The palette that the color loop indexes is
    therefore never empty, and [i % len(palette)] never divides by zero. *)
Theorem palette_in_use_is_nonempty
        (cc : option (list string)) (w : world) :
  exists p,
    resolve_concept_colors cc w = (Returns p, w) /\
    p = match cc with
        | Some (c :: l) => c :: l
        | Some [] => fallback_palette
        | None => match default_colorway w with
                  | Some (c :: l) => c :: l
                  | Some [] | None => fallback_palette
                  end
        end /\
    length fallback_palette = 5 /\
    p <> [] /\
    (forall i, run (mod_ i (length p)) w = Returns (i mod length p)).
Proof.
  exists (palette cc w). split; [apply resolve_concept_colors_eq|].
  split; [|split; [reflexivity|split]].
  - unfold palette. destruct cc as [[|c l]|]; try reflexivity.
    destruct (default_colorway w) as [[|c l]|]; reflexivity.
  - apply palette_nonempty.
  - intros i. unfold run. rewrite mod_returns; [reflexivity|].
    pose proof (palette_nonempty cc w) as Hne.
    destruct (palette cc w); simpl; congruence.
Qed.

(** C8, as stated, fails: with [concept_colors] absent and a template that
    has a colorway, the palette in use is that colorway and not the
    five-color palette, and the concept nodes are colored from it. *)
Lemma absent_palette_takes_template_colorway :
  (None = @None (list string) \/ None = Some (@nil string)) /\
  run (resolve_concept_colors None) template_with_colorway =
  Returns ["#636efa"; "#EF553B"; "#00cc96"] /\
  run (resolve_concept_colors None) template_with_colorway <>
  Returns fallback_palette /\
  exists fig,
    run (concept_prediction_sankey AB XY diag_1_2 None
           prediction_color_default) template_with_colorway = Returns fig /\
    color (node fig) = ["#636efa"; "#EF553B"; "#111827"; "#111827"].
Proof.
  split; [now left|]. split; [reflexivity|]. split; [discriminate|].
  eexists. split; reflexivity.
Qed.



(** C10: on a well-shaped matrix the parallel arrays of the descriptor are
    aligned: source, target, value and link color have one entry per link,
    and the node labels and node colors have one entry per node, that is
    the number of concepts plus the number of predictions. *)
Theorem arrays_are_aligned
        (concepts predictions : list string) (flows : list (list float))
        (cc : option (list string)) (pc : string) (w : world) :
  shape_ok concepts predictions flows ->
  exists fig lc,
    run (concept_prediction_sankey concepts predictions flows cc pc) w =
    Returns fig /\
    link_color (link fig) = Some lc /\
    length (link_target (link fig)) = length (link_source (link fig)) /\
    length (link_value (link fig)) = length (link_source (link fig)) /\
    length lc = length (link_source (link fig)) /\
    length (links fig) = length (link_source (link fig)) /\
    length (label (node fig)) = length concepts + length predictions /\
    length (color (node fig)) = length concepts + length predictions.
Proof.
  intros Hshape. eexists. eexists. split;
    [unfold run; rewrite sankey_returns by assumption; reflexivity|].
  split; [reflexivity|].
  rewrite model_links.
  cbn [sankey_model node label color link link_source link_target
       link_value].
  rewrite !length_map, !length_app, repeat_length, cycle_colors_length.
  repeat split; reflexivity.
Qed.

Lemma arrays_are_aligned_witness :
  shape_ok AB XY diag_1_2 /\
  exists fig lc,
    run (concept_prediction_sankey AB XY diag_1_2 None
           prediction_color_default) template_with_colorway = Returns fig /\
    link_color (link fig) = Some lc /\
    length (link_target (link fig)) = length (link_source (link fig)) /\
    length (link_value (link fig)) = length (link_source (link fig)) /\
    length lc = length (link_source (link fig)) /\
    length (links fig) = length (link_source (link fig)) /\
    length (label (node fig)) = length AB + length XY /\
    length (color (node fig)) = length AB + length XY.
Proof.
  split.
  - split; [reflexivity|]. repeat constructor.
  - apply (arrays_are_aligned AB XY diag_1_2 None prediction_color_default
             template_with_colorway).
    split; [reflexivity|]. repeat constructor.
Defined.

(** * Further properties of [concept_prediction_sankey] *)

Lemma cycle_colors_no_wrap (p : list string) (n : nat) :
  n <= length p -> cycle_colors p n = firstn n p.
Proof.
  intros Hn. apply nth_error_ext. intros i.
  destruct (Nat.lt_ge_cases i n) as [Hi|Hi].
  - rewrite cycle_colors_nth by exact Hi.
    rewrite nth_error_firstn.
    destruct (Nat.ltb_spec i n) as [_|Hge]; [|lia].
    rewrite Nat.mod_small by lia. symmetry. apply nth_error_nth'. lia.
  - rewrite (proj2 (nth_error_None _ _));
      [|rewrite cycle_colors_length; exact Hi].
    symmetry. apply nth_error_None. rewrite length_firstn. lia.
Qed.

Lemma count_nonzero_all_zero (flows : list (list float)) :
  Forall (Forall (fun v => is_zero v = true)) flows ->
  count_nonzero flows = 0.
Proof.
  intros Hz. unfold count_nonzero.
  induction Hz as [|row rows Hrow _ IH]; [reflexivity|].
  rewrite concat_cons, filter_app, length_app, IH, Nat.add_0_r.
  clear IH. induction Hrow as [|v row Hv _ IH]; [reflexivity|].
  simpl. rewrite Hv. exact IH.
Qed.

(** X2: when the palette in use has at least as many colors as there are
    concepts nothing cycles: the concept nodes take the first
    [len(concepts)] colors of the palette, in order. *)
Theorem long_palette_is_used_in_order
        (concepts predictions : list string) (flows : list (list float))
        (cc : option (list string)) (pc : string) (w : world) :
  shape_ok concepts predictions flows ->
  length concepts <= length (palette cc w) ->
  exists fig,
    run (concept_prediction_sankey concepts predictions flows cc pc) w =
    Returns fig /\
    firstn (length concepts) (color (node fig)) =
    firstn (length concepts) (palette cc w).
Proof.
  intros Hshape Hlen. by_model.
  cbn [sankey_model node color].
  rewrite <- (cycle_colors_no_wrap _ _ Hlen).
  rewrite firstn_app, cycle_colors_length, Nat.sub_diag. cbn [firstn].
  rewrite app_nil_r. apply firstn_all2. now rewrite cycle_colors_length.
Qed.

Lemma long_palette_is_used_in_order_witness :
  shape_ok AB XY diag_1_2 /\
  length AB <= length (palette (Some ["red"; "green"; "blue"]) no_template) /\
  exists fig,
    run (concept_prediction_sankey AB XY diag_1_2
           (Some ["red"; "green"; "blue"]) prediction_color_default)
        no_template = Returns fig /\
    firstn (length AB) (color (node fig)) =
    firstn (length AB) (palette (Some ["red"; "green"; "blue"]) no_template).
Proof.
  split; [split; [reflexivity|repeat constructor]|].
  split; [simpl; lia|].
  apply (long_palette_is_used_in_order AB XY diag_1_2
           (Some ["red"; "green"; "blue"]) prediction_color_default
           no_template).
  - split; [reflexivity|]. repeat constructor.
  - simpl. lia.
Defined.

(** X3: the links determine the matrix up to its zeros: two well-shaped
    matrices for the same labels that give the same links agree on every
    cell, except that where one has a zero the other has a zero too
    (possibly of the other sign). *)
Theorem links_determine_flows
        (concepts predictions : list string)
        (flows1 flows2 : list (list float))
        (cc1 cc2 : option (list string)) (pc1 pc2 : string)
        (w1 w2 : world) :
  shape_ok concepts predictions flows1 ->
  shape_ok concepts predictions flows2 ->
  exists fig1 fig2,
    run (concept_prediction_sankey concepts predictions flows1 cc1 pc1) w1 =
    Returns fig1 /\
    run (concept_prediction_sankey concepts predictions flows2 cc2 pc2) w2 =
    Returns fig2 /\
    (links fig1 = links fig2 ->
     forall i j row1 row2 v1 v2,
       nth_error flows1 i = Some row1 -> nth_error row1 j = Some v1 ->
       nth_error flows2 i = Some row2 -> nth_error row2 j = Some v2 ->
       v1 = v2 \/ (is_zero v1 = true /\ is_zero v2 = true)).
Proof.
  intros Hok1 Hok2. eexists. eexists.
  split; [unfold run; rewrite sankey_returns by assumption; reflexivity|].
  split; [unfold run; rewrite sankey_returns by assumption; reflexivity|].
  rewrite !model_links. intros Heq i j row1 row2 v1 v2 Hr1 Hj1 Hr2 Hj2.
  assert (Hcell :
            forall fa fb rowa rowb va vb,
              row_major_links (length concepts) fa =
              row_major_links (length concepts) fb ->
              nth_error fa i = Some rowa -> nth_error rowa j = Some va ->
              nth_error fb i = Some rowb -> nth_error rowb j = Some vb ->
              is_zero va = false -> va = vb).
  { intros fa fb rowa rowb va vb E Ha Hja Hb Hjb Hnz.
    assert (Hin : In (i, length concepts + j, va)
                     (row_major_links (length concepts) fb)).
    { rewrite <- E. apply in_row_major_links. now exists i, j, va, rowa. }
    apply in_row_major_links in Hin.
    destruct Hin as [i' [j' [v' [row' [Hr' [Hj' [_ E']]]]]]].
    inversion E' as [[Hi Hjj Hv]]. apply Nat.add_cancel_l in Hjj.
    subst i' j' v'. congruence. }
  destruct (is_zero v1) eqn:Hz1.
  - destruct (is_zero v2) eqn:Hz2; [right; now split|].
    left. symmetry.
    exact (Hcell flows2 flows1 row2 row1 v2 v1 (eq_sym Heq)
                 Hr2 Hj2 Hr1 Hj1 Hz2).
  - left. exact (Hcell flows1 flows2 row1 row2 v1 v2 Heq Hr1 Hj1 Hr2 Hj2 Hz1).
Qed.

Lemma links_determine_flows_witness :
  shape_ok AB XY diag_1_2 /\
  shape_ok AB XY [[1%float; (-0)%float]; [0%float; 2%float]] /\
  exists fig1 fig2,
    run (concept_prediction_sankey AB XY diag_1_2 None
           prediction_color_default) no_template = Returns fig1 /\
    run (concept_prediction_sankey AB XY
           [[1%float; (-0)%float]; [0%float; 2%float]] (Some ["red"])
           prediction_color_default) template_with_colorway =
    Returns fig2 /\
    (links fig1 = links fig2 ->
     forall i j row1 row2 v1 v2,
       nth_error diag_1_2 i = Some row1 -> nth_error row1 j = Some v1 ->
       nth_error [[1%float; (-0)%float]; [0%float; 2%float]] i = Some row2 ->
       nth_error row2 j = Some v2 ->
       v1 = v2 \/ (is_zero v1 = true /\ is_zero v2 = true)).
Proof.
  split; [split; [reflexivity|repeat constructor]|].
  split; [split; [reflexivity|repeat constructor]|].
  apply (links_determine_flows AB XY diag_1_2
           [[1%float; (-0)%float]; [0%float; 2%float]]
           None (Some ["red"]) prediction_color_default
           prediction_color_default no_template template_with_colorway).
  - split; [reflexivity|]. repeat constructor.
  - split; [reflexivity|]. repeat constructor.
Defined.

(** X4: every link joins the right names: for a link with source [s], target
    [t] and value [x], the node label at [s] is the concept of row [s], the
    node label at [t] is the prediction of column [t - len(concepts)], and
    [x] is the non-zero magnitude of that cell. *)
Theorem link_endpoints_carry_the_cell_labels
        (concepts predictions : list string) (flows : list (list float))
        (cc : option (list string)) (pc : string) (w : world) :
  shape_ok concepts predictions flows ->
  exists fig,
    run (concept_prediction_sankey concepts predictions flows cc pc) w =
    Returns fig /\
    forall l, In l (links fig) ->
      exists c p row,
        nth_error concepts (src l) = Some c /\
        nth_error (label (node fig)) (src l) = Some c /\
        nth_error predictions (tgt l - length concepts) = Some p /\
        nth_error (label (node fig)) (tgt l) = Some p /\
        nth_error flows (src l) = Some row /\
        nth_error row (tgt l - length concepts) = Some (val l) /\
        is_zero (val l) = false.
Proof.
  intros Hshape. by_model. destruct Hshape as [Hlen Hrows].
  rewrite model_links. cbn [sankey_model node label].
  intros l Hl. apply in_row_major_links in Hl.
  destruct Hl as [i [j [v [row [Hrow [Hj [Hnz ->]]]]]]].
  unfold src, tgt, val. cbn [fst snd].
  assert (Hi : i < length concepts).
  { rewrite <- Hlen. apply nth_error_Some. congruence. }
  assert (Hjlt : j < length predictions).
  { apply nth_error_In in Hrow as Hin.
    rewrite <- (proj1 (Forall_forall _ _) Hrows row Hin).
    apply nth_error_Some. congruence. }
  rewrite Nat.add_comm, Nat.add_sub.
  exists (nth i concepts ""), (nth j predictions ""), row.
  repeat split; try assumption.
  - now apply nth_error_nth'.
  - rewrite nth_error_app1 by exact Hi. now apply nth_error_nth'.
  - now apply nth_error_nth'.
  - rewrite nth_error_app2 by lia. rewrite Nat.add_sub.
    now apply nth_error_nth'.
Qed.

Lemma link_endpoints_carry_the_cell_labels_witness :
  shape_ok AB XY diag_1_2 /\
  exists fig,
    run (concept_prediction_sankey AB XY diag_1_2 None
           prediction_color_default) no_template = Returns fig /\
    forall l, In l (links fig) ->
      exists c p row,
        nth_error AB (src l) = Some c /\
        nth_error (label (node fig)) (src l) = Some c /\
        nth_error XY (tgt l - length AB) = Some p /\
        nth_error (label (node fig)) (tgt l) = Some p /\
        nth_error diag_1_2 (src l) = Some row /\
        nth_error row (tgt l - length AB) = Some (val l) /\
        is_zero (val l) = false.
Proof.
  split; [split; [reflexivity|repeat constructor]|].
  apply (link_endpoints_carry_the_cell_labels AB XY diag_1_2 None
           prediction_color_default no_template).
  split; [reflexivity|]. repeat constructor.
Defined.

(** X5: a well-shaped matrix with no non-zero cell, the empty matrix included,
    is not an error: the figure has every node, with its label and color,
    and no link. *)
Theorem all_zero_matrix_gives_nodes_without_links
        (concepts predictions : list string) (flows : list (list float))
        (cc : option (list string)) (pc : string) (w : world) :
  shape_ok concepts predictions flows ->
  Forall (Forall (fun v => is_zero v = true)) flows ->
  exists fig,
    run (concept_prediction_sankey concepts predictions flows cc pc) w =
    Returns fig /\
    label (node fig) = concepts ++ predictions /\
    length (color (node fig)) = length concepts + length predictions /\
    link_source (link fig) = [] /\
    link_target (link fig) = [] /\
    link_value (link fig) = [] /\
    link_color (link fig) = Some [].
Proof.
  intros Hshape Hz. by_model.
  cbn [sankey_model node label color link link_source link_target
       link_value link_color].
  assert (Hnil : row_major_links (length concepts) flows = []).
  { apply length_zero_iff_nil.
    now rewrite emit_length, count_nonzero_all_zero. }
  rewrite Hnil, length_app, repeat_length, cycle_colors_length.
  repeat split; reflexivity.
Qed.

Lemma all_zero_matrix_gives_nodes_without_links_witness :
  shape_ok AB XY [[0%float; (-0)%float]; [0%float; 0%float]] /\
  Forall (Forall (fun v => is_zero v = true))
         [[0%float; (-0)%float]; [0%float; 0%float]] /\
  exists fig,
    run (concept_prediction_sankey AB XY
           [[0%float; (-0)%float]; [0%float; 0%float]] None
           prediction_color_default) no_template = Returns fig /\
    label (node fig) = AB ++ XY /\
    length (color (node fig)) = length AB + length XY /\
    link_source (link fig) = [] /\
    link_target (link fig) = [] /\
    link_value (link fig) = [] /\
    link_color (link fig) = Some [].
Proof.
  split; [split; [reflexivity|repeat constructor]|].
  split; [repeat constructor|].
  apply (all_zero_matrix_gives_nodes_without_links AB XY
           [[0%float; (-0)%float]; [0%float; 0%float]] None
           prediction_color_default no_template).
  - split; [reflexivity|]. repeat constructor.
  - repeat constructor.
Defined.

(** * Properties of the energy figures *)

Module EnergyFacts.

Import ZArith Ascii.
Import Energy.

(** ** Subscripts and comprehensions *)

Lemma position_in_range (n : nat) (z : Z) :
  in_range n z -> position n z < n.
Proof.
  unfold in_range, position. intros H.
  destruct (Z.ltb_spec z 0); lia.
Qed.

Lemma index_in_range {A} (xs : list A) (z : Z) (d : A) :
  in_range (length xs) z ->
  index xs z = Returns (nth (position (length xs) z) xs d).
Proof.
  intros H. pose proof (position_in_range _ _ H) as Hp.
  unfold index. fold (position (length xs) z).
  unfold in_range in H. unfold position in *.
  destruct (Z.ltb_spec z 0) as [Hneg|Hpos].
  - destruct (Z.leb_spec 0 (z + Z.of_nat (length xs))) as [_|Hc]; [|lia].
    destruct (Z.ltb_spec (z + Z.of_nat (length xs)) (Z.of_nat (length xs)))
      as [_|Hc]; [|lia].
    cbn [andb]. now rewrite (nth_error_nth' xs d Hp).
  - destruct (Z.leb_spec 0 z) as [_|Hc]; [|lia].
    destruct (Z.ltb_spec z (Z.of_nat (length xs))) as [_|Hc]; [|lia].
    cbn [andb]. now rewrite (nth_error_nth' xs d Hp).
Qed.

Lemma index_out_of_range {A} (xs : list A) (z : Z) :
  ~ in_range (length xs) z -> index xs z = Raises IndexError.
Proof.
  unfold in_range, index. intros H.
  destruct (Z.ltb_spec z 0) as [Hneg|Hpos].
  - destruct (Z.leb_spec 0 (z + Z.of_nat (length xs))) as [Hc|_];
      [|reflexivity].
    destruct (Z.ltb_spec (z + Z.of_nat (length xs)) (Z.of_nat (length xs)))
      as [Hd|_]; [lia|reflexivity].
  - destruct (Z.leb_spec 0 z) as [_|Hc]; [|lia].
    destruct (Z.ltb_spec z (Z.of_nat (length xs))) as [Hd|_];
      [lia|reflexivity].
Qed.

Lemma in_range_dec (n : nat) (z : Z) : {in_range n z} + {~ in_range n z}.
Proof.
  unfold in_range.
  destruct (Z_le_dec (- Z.of_nat n) z); [|right; lia].
  destruct (Z_lt_dec z (Z.of_nat n)); [left; lia|right; lia].
Qed.

Lemma comprehension_all_return {A B} (f : A -> outcome B) (g : A -> B)
      (xs : list A) :
  Forall (fun x => f x = Returns (g x)) xs ->
  comprehension f xs = Returns (map g xs).
Proof.
  induction 1 as [|x xs Hx _ IH]; [reflexivity|].
  cbn [comprehension map]. rewrite Hx. cbn [bind]. rewrite IH. reflexivity.
Qed.

Lemma comprehension_one_raises {A B} (f : A -> outcome B) (e : exn)
      (xs : list A) :
  Forall (fun x => (exists y, f x = Returns y) \/ f x = Raises e) xs ->
  Exists (fun x => f x = Raises e) xs ->
  comprehension f xs = Raises e.
Proof.
  induction 1 as [|x xs Hx _ IH]; intros Hex; [inversion Hex|].
  cbn [comprehension]. destruct Hx as [[y Hy]|Hr].
  - rewrite Hy. cbn [bind]. rewrite IH; [reflexivity|].
    inversion Hex; subst; [congruence|assumption].
  - rewrite Hr. reflexivity.
Qed.

Lemma comprehension_raises_after {A B} (f : A -> outcome B) (e : exn)
      (pre post : list A) (x : A) :
  Forall (fun a => exists y, f a = Returns y) pre ->
  f x = Raises e ->
  comprehension f (pre ++ x :: post) = Raises e.
Proof.
  intros Hpre Hx. induction Hpre as [|a pre [y Hy] _ IH].
  - cbn [app comprehension]. now rewrite Hx.
  - cbn [app comprehension]. rewrite Hy. cbn [bind]. now rewrite IH.
Qed.

(** ** [str.replace] *)

Lemma replace_from_0_cons (c : ascii) (s old new : string) :
  replace_from 0 (String c s) old new =
  if String.prefix old (String c s)
  then (new ++ replace_from (String.length old - 1) s old new)%string
  else String c (replace_from 0 s old new).
Proof. reflexivity. Qed.

Lemma replace_from_skip (u r old new : string) :
  replace_from (String.length u) (u ++ r)%string old new =
  replace_from 0 r old new.
Proof.
  induction u as [|c u IH]; [reflexivity|]. simpl. exact IH.
Qed.

Lemma prefix_split (old s : string) :
  String.prefix old s = true -> exists r, s = (old ++ r)%string.
Proof.
  revert s. induction old as [|a old IH]; intros s H.
  - exists s. reflexivity.
  - destruct s as [|b s]; [discriminate|]. simpl in H.
    destruct (ascii_dec a b) as [->|]; [|discriminate].
    destruct (IH s H) as [r ->]. exists r. reflexivity.
Qed.

Lemma string_length_append (u r : string) :
  String.length (u ++ r)%string = String.length u + String.length r.
Proof. induction u as [|c u IH]; simpl; [reflexivity|now rewrite IH]. Qed.

Lemma replace_absent (s : string) (a : ascii) (old new : string) :
  occurs (String a old) s = false -> replace s (String a old) new = s.
Proof.
  unfold replace. induction s as [|c s IH]; intros H; [reflexivity|].
  rewrite replace_from_0_cons. cbn [occurs] in H.
  apply orb_false_iff in H. destruct H as [Hp Ho].
  rewrite Hp, (IH Ho). reflexivity.
Qed.

Lemma replace_by_itself (s : string) (a : ascii) (old : string) :
  replace s (String a old) (String a old) = s.
Proof.
  unfold replace.
  assert (H : forall n s, String.length s <= n ->
                          replace_from 0 s (String a old) (String a old) = s).
  { clear s. induction n as [|n IH]; intros s Hn.
    - destruct s; [reflexivity|simpl in Hn; lia].
    - destruct s as [|c s]; [reflexivity|].
      rewrite replace_from_0_cons.
      destruct (String.prefix (String a old) (String c s)) eqn:Hp.
      + destruct (prefix_split _ _ Hp) as [r Hr].
        simpl in Hr. inversion Hr; subst c s.
        cbn [String.length]. rewrite Nat.sub_succ, Nat.sub_0_r.
        rewrite replace_from_skip, IH; [reflexivity|].
        simpl in Hn. rewrite string_length_append in Hn. lia.
      + rewrite IH; [reflexivity|]. simpl in Hn. lia. }
  apply (H (String.length s)). reflexivity.
Qed.

Lemma replace_magenta (new : string) :
  replace magenta_rgba "0.8" new = ("rgba(255,0,255, " ++ new ++ ")")%string.
Proof. reflexivity. Qed.

(** ** Recoloring *)

Lemma recolor_text (c : string) : recolor (JStr c) = JStr (recolor_str c).
Proof.
  unfold recolor, recolor_str, is_magenta.
  destruct (String.eqb c "magenta"); reflexivity.
Qed.

Lemma recolor_texts (colors : list string) :
  map recolor (map JStr colors) = map JStr (map recolor_str colors).
Proof.
  rewrite !map_map. apply map_ext. intros c. apply recolor_text.
Qed.

Lemma recolor_str_not_magenta (c : string) : recolor_str c <> "magenta".
Proof.
  unfold recolor_str. destruct (String.eqb_spec c "magenta") as [->|Hne].
  - discriminate.
  - exact Hne.
Qed.

Lemma comprehension_map {A B C} (f : B -> outcome C) (k : A -> B)
      (xs : list A) :
  comprehension f (map k xs) = comprehension (fun x => f (k x)) xs.
Proof.
  induction xs as [|x xs IH]; [reflexivity|].
  cbn [map comprehension]. now rewrite IH.
Qed.

(** ** The builders on a conforming document *)

Ltac split_binds :=
  repeat match goal with
         | |- context [bind ?m _] => destruct m eqn:?; cbn [bind]
         end.



Section OnDocuments.

Variable str : float -> string.
Variable load_energy_sankey_data : outcome json.

Lemma link_color_of_source (colors : list string) (opacity : float) (z : Z) :
  in_range (length colors) z ->
  (c <~ getitem_value (map recolor (map JStr colors)) (JInt z) ;;
   replace_method c "0.8" (str opacity)) =
  Returns
    (JStr (replace (nth (position (length colors) z)
                        (map recolor_str colors) "")
                   "0.8" (str opacity))).
Proof.
  intros Hz. rewrite recolor_texts. cbn [getitem_value].
  rewrite (index_in_range _ z (JStr ""));
    [|now rewrite !length_map].
  rewrite !length_map. cbn [bind]. rewrite map_nth. reflexivity.
Qed.

Lemma source_out_of_range (colors : list string) (opacity : float) (z : Z) :
  ~ in_range (length colors) z ->
  (c <~ getitem_value (map recolor (map JStr colors)) (JInt z) ;;
   replace_method c "0.8" (str opacity)) =
  Raises IndexError.
Proof.
  intros Hz. cbn [getitem_value].
  rewrite index_out_of_range; [reflexivity|now rewrite !length_map].
Qed.

Lemma colored_on_conforming (data : json) (colors : list string)
      (zs : list Z) (opacity : float) :
  conforms data colors zs ->
  Forall (in_range (length colors)) zs ->
  exists fig,
    colored_links_sankey str load_energy_sankey_data (Some data) opacity =
    Returns fig /\
    color (node fig) = JList (map JStr (map recolor_str colors)) /\
    link_color (link fig) =
    Some (JList
            (map JStr
                 (map (fun z =>
                         replace (nth (position (length colors) z)
                                      (map recolor_str colors) "")
                                 "0.8" (str opacity)) zs))).
Proof.
  intros [Hc [Hs [[lb Hlb] [[tg Htg] [[vl Hvl] [ll Hll]]]]]] Hr.
  unfold colored_links_sankey. cbn [data_or_load bind].
  rewrite Hc. cbn [bind iter]. rewrite Hs. cbn [bind iter].
  rewrite comprehension_map.
  rewrite (comprehension_all_return _
             (fun z => JStr (replace (nth (position (length colors) z)
                                          (map recolor_str colors) "")
                                     "0.8" (str opacity)))).
  - cbn [bind]. rewrite Hlb, Htg, Hvl, Hll. cbn [bind].
    eexists. split; [reflexivity|]. cbn [node color link link_color].
    split.
    + now rewrite recolor_texts.
    + now rewrite (map_map _ JStr zs).
  - eapply Forall_impl; [|exact Hr]. intros z Hz.
    now apply link_color_of_source.
Qed.

(** X6: on a conforming document whose sources are valid indices the call
    returns; the node colors are the colors of the document, one for one,
    with each ["magenta"] replaced by ["rgba(255,0,255, 0.8)"] and every
    other color as it was, so no node is colored ["magenta"]. *)
Theorem recoloring_replaces_magenta_only
        (data : json) (colors : list string) (zs : list Z)
        (opacity : float) :
  conforms data colors zs ->
  Forall (in_range (length colors)) zs ->
  exists fig ncs,
    colored_links_sankey str load_energy_sankey_data (Some data) opacity =
    Returns fig /\
    color (node fig) = JList (map JStr ncs) /\
    length ncs = length colors /\
    ~ In "magenta" ncs /\
    (forall k c,
        nth_error colors k = Some c ->
        nth_error ncs k =
        Some (if String.eqb c "magenta" then "rgba(255,0,255, 0.8)" else c)).
Proof.
  intros Hconf Hr.
  destruct (colored_on_conforming data colors zs opacity Hconf Hr)
    as [fig [Hfig [Hcol _]]].
  exists fig, (map recolor_str colors).
  split; [exact Hfig|]. split; [exact Hcol|].
  split; [now rewrite length_map|]. split.
  - intros Hin. apply in_map_iff in Hin. destruct Hin as [c [Hc _]].
    exact (recolor_str_not_magenta c Hc).
  - intros k c Hk. rewrite nth_error_map, Hk. reflexivity.
Qed.

(** X7: on such a document there is one link color per link: the color of the
    node that the link's source index denotes in the recolored list, a
    negative index counting from the end, with every ["0.8"] in it replaced
    by [str(opacity)]. *)
Theorem link_color_is_rewritten_source_color
        (data : json) (colors : list string) (zs : list Z)
        (opacity : float) :
  conforms data colors zs ->
  Forall (in_range (length colors)) zs ->
  exists fig ncs lcs,
    colored_links_sankey str load_energy_sankey_data (Some data) opacity =
    Returns fig /\
    color (node fig) = JList (map JStr ncs) /\
    link_color (link fig) = Some (JList (map JStr lcs)) /\
    length lcs = length zs /\
    (forall k z,
        nth_error zs k = Some z ->
        exists c,
          nth_error ncs (position (length colors) z) = Some c /\
          nth_error lcs k = Some (replace c "0.8" (str opacity))).
Proof.
  intros Hconf Hr.
  destruct (colored_on_conforming data colors zs opacity Hconf Hr)
    as [fig [Hfig [Hcol Hlc]]].
  exists fig, (map recolor_str colors). eexists.
  split; [exact Hfig|]. split; [exact Hcol|]. split; [exact Hlc|].
  split; [now rewrite length_map|].
  intros k z Hk.
  exists (nth (position (length colors) z) (map recolor_str colors) "").
  split.
  - apply nth_error_nth'. rewrite length_map. apply position_in_range.
    apply nth_error_In in Hk.
    exact (proj1 (Forall_forall _ _) Hr z Hk).
  - rewrite nth_error_map, Hk. reflexivity.
Qed.

(** X8: a source index outside [-n, n), [n] being the number of node colors,
    makes the call raise [IndexError]: no figure is returned. *)
Theorem out_of_range_source_raises
        (data : json) (colors : list string) (zs : list Z)
        (opacity : float) :
  conforms data colors zs ->
  Exists (fun z => ~ in_range (length colors) z) zs ->
  colored_links_sankey str load_energy_sankey_data (Some data) opacity =
  Raises IndexError.
Proof.
  intros [Hc [Hs _]] Hex.
  unfold colored_links_sankey. cbn [data_or_load bind].
  rewrite Hc. cbn [bind iter]. rewrite Hs. cbn [bind iter].
  rewrite comprehension_map, (comprehension_one_raises _ IndexError);
    [reflexivity| |].
  - apply Forall_forall. intros z _.
    destruct (in_range_dec (length colors) z) as [Hin|Hout].
    + left. eexists. now apply link_color_of_source.
    + right. now apply source_out_of_range.
  - eapply Exists_impl; [|exact Hex]. intros z Hz.
    now apply source_out_of_range.
Qed.

(** X9: a link whose source node is ["magenta"] is colored
    ["rgba(255,0,255, " + str(opacity) + ")"]. *)
Theorem magenta_link_gets_opacity
        (data : json) (colors : list string) (zs : list Z)
        (opacity : float) :
  conforms data colors zs ->
  Forall (in_range (length colors)) zs ->
  exists fig lcs,
    colored_links_sankey str load_energy_sankey_data (Some data) opacity =
    Returns fig /\
    link_color (link fig) = Some (JList (map JStr lcs)) /\
    (forall k z,
        nth_error zs k = Some z ->
        nth_error colors (position (length colors) z) = Some "magenta" ->
        nth_error lcs k =
        Some ("rgba(255,0,255, " ++ str opacity ++ ")")%string).
Proof.
  intros Hconf Hr.
  destruct (colored_on_conforming data colors zs opacity Hconf Hr)
    as [fig [Hfig [_ Hlc]]].
  exists fig. eexists. split; [exact Hfig|]. split; [exact Hlc|].
  intros k z Hk Hm. rewrite nth_error_map, Hk. cbn [option_map].
  rewrite (nth_error_nth _ _ "" (eq_trans (nth_error_map _ _ _)
                                           (f_equal (option_map _) Hm))).
  cbn [recolor_str]. apply f_equal, replace_magenta.
Qed.

(** X10: a link whose source node has a color other than ["magenta"] in which
    ["0.8"] does not occur, a hex or a named color for instance, has
    exactly that color. *)
Theorem color_without_marker_is_inherited
        (data : json) (colors : list string) (zs : list Z)
        (opacity : float) :
  conforms data colors zs ->
  Forall (in_range (length colors)) zs ->
  exists fig lcs,
    colored_links_sankey str load_energy_sankey_data (Some data) opacity =
    Returns fig /\
    link_color (link fig) = Some (JList (map JStr lcs)) /\
    (forall k z c,
        nth_error zs k = Some z ->
        nth_error colors (position (length colors) z) = Some c ->
        c <> "magenta" ->
        occurs "0.8" c = false ->
        nth_error lcs k = Some c).
Proof.
  intros Hconf Hr.
  destruct (colored_on_conforming data colors zs opacity Hconf Hr)
    as [fig [Hfig [_ Hlc]]].
  exists fig. eexists. split; [exact Hfig|]. split; [exact Hlc|].
  intros k z c Hk Hc Hne Hocc. rewrite nth_error_map, Hk. cbn [option_map].
  rewrite (nth_error_nth _ _ "" (eq_trans (nth_error_map _ _ _)
                                           (f_equal (option_map _) Hc))).
  unfold recolor_str. destruct (String.eqb_spec c "magenta") as [E|_];
    [contradiction|].
  apply f_equal, replace_absent, Hocc.
Qed.

(** X11: when [str(opacity)] is ["0.8"] itself nothing is rewritten: every link
    has the color of its source node. *)
Theorem marker_opacity_keeps_colors
        (data : json) (colors : list string) (zs : list Z)
        (opacity : float) :
  conforms data colors zs ->
  Forall (in_range (length colors)) zs ->
  str opacity = "0.8" ->
  exists fig ncs lcs,
    colored_links_sankey str load_energy_sankey_data (Some data) opacity =
    Returns fig /\
    color (node fig) = JList (map JStr ncs) /\
    link_color (link fig) = Some (JList (map JStr lcs)) /\
    (forall k z,
        nth_error zs k = Some z ->
        exists c,
          nth_error ncs (position (length colors) z) = Some c /\
          nth_error lcs k = Some c).
Proof.
  intros Hconf Hr Hstr.
  destruct (colored_on_conforming data colors zs opacity Hconf Hr)
    as [fig [Hfig [Hcol Hlc]]].
  exists fig, (map recolor_str colors). eexists.
  split; [exact Hfig|]. split; [exact Hcol|]. split; [exact Hlc|].
  intros k z Hk.
  exists (nth (position (length colors) z) (map recolor_str colors) "").
  split.
  - apply nth_error_nth'. rewrite length_map. apply position_in_range.
    apply nth_error_In in Hk.
    exact (proj1 (Forall_forall _ _) Hr z Hk).
  - rewrite nth_error_map, Hk, Hstr. cbn [option_map].
    apply f_equal, replace_by_itself.
Qed.

(** X12: a link source that the document gives as a float, [1.0] for [1], is
    not accepted as an index: when the sources before it are valid the call
    raises [TypeError]. *)
Theorem float_source_raises_type_error
        (data : json) (colors : list string) (pre : list Z) (f : float)
        (post : list json) (opacity : float) :
  field data "node" "color" = Returns (JList (map JStr colors)) ->
  field data "link" "source" =
  Returns (JList (map JInt pre ++ JFloat f :: post)) ->
  Forall (in_range (length colors)) pre ->
  colored_links_sankey str load_energy_sankey_data (Some data) opacity =
  Raises TypeError.
Proof.
  intros Hc Hs Hpre.
  unfold colored_links_sankey. cbn [data_or_load bind].
  rewrite Hc. cbn [bind iter]. rewrite Hs. cbn [bind iter].
  rewrite (comprehension_raises_after _ TypeError); [reflexivity| |].
  - apply Forall_map. eapply Forall_impl; [|exact Hpre].
    intros z Hz. eexists. now apply link_color_of_source.
  - reflexivity.
Qed.

(** ** Missing fields, and the two builders together *)

(** X13: both builders need the six fields: when one of [node.label],
    [node.color], [link.source], [link.target], [link.value], [link.label]
    of the first trace cannot be read, each of them raises and returns no
    figure. *)
Theorem unreadable_field_raises
        (data : json) (opacity : float) (group name : string) (e : exn) :
  In (group, name)
     [("node", "label"); ("node", "color"); ("link", "source");
      ("link", "target"); ("link", "value"); ("link", "label")] ->
  field data group name = Raises e ->
  (exists e',
      colored_links_sankey str load_energy_sankey_data (Some data) opacity =
      Raises e') /\
  (exists e',
      styled_sankey load_energy_sankey_data (Some data) = Raises e').
Proof.
  intros Hin Hf. cbn [In] in Hin.
  repeat (destruct Hin as [Hin|Hin]); try contradiction;
    inversion Hin; subst group name; clear Hin;
    (split;
     [unfold colored_links_sankey|unfold styled_sankey];
     cbn [data_or_load bind]; split_binds;
     first [eexists; reflexivity | congruence]).
Qed.


End OnDocuments.

(** ** Instances *)

Ltac conforms_by_reading :=
  unfold conforms; repeat split; try reflexivity; eexists; reflexivity.

Ltac in_range_by_arithmetic :=
  repeat first [apply Forall_nil
               | apply Forall_cons; [unfold in_range; simpl; lia|]].

Lemma recoloring_replaces_magenta_only_witness :
  conforms sample_document
    ["rgba(31, 119, 180, 0.8)"; "magenta"; "#2ca02c"] [0; 1; -1]%Z /\
  Forall (in_range (length ["rgba(31, 119, 180, 0.8)"; "magenta"; "#2ca02c"]))
         [0; 1; -1]%Z /\
  exists fig ncs,
    colored_links_sankey str_0_4 no_network (Some sample_document)
      0.5%float = Returns fig /\
    color (node fig) = JList (map JStr ncs) /\
    length ncs = length ["rgba(31, 119, 180, 0.8)"; "magenta"; "#2ca02c"] /\
    ~ In "magenta" ncs /\
    (forall k c,
        nth_error ["rgba(31, 119, 180, 0.8)"; "magenta"; "#2ca02c"] k = Some c ->
        nth_error ncs k =
        Some (if String.eqb c "magenta" then "rgba(255,0,255, 0.8)" else c)).
Proof.
  split; [conforms_by_reading|]. split; [in_range_by_arithmetic|].
  apply (recoloring_replaces_magenta_only str_0_4 no_network sample_document
           ["rgba(31, 119, 180, 0.8)"; "magenta"; "#2ca02c"] [0; 1; -1]%Z 0.5%float).
  - conforms_by_reading.
  - in_range_by_arithmetic.
Defined.

Lemma link_color_is_rewritten_source_color_witness :
  conforms sample_document
    ["rgba(31, 119, 180, 0.8)"; "magenta"; "#2ca02c"] [0; 1; -1]%Z /\
  Forall (in_range (length ["rgba(31, 119, 180, 0.8)"; "magenta"; "#2ca02c"]))
         [0; 1; -1]%Z /\
  exists fig ncs lcs,
    colored_links_sankey str_0_4 no_network (Some sample_document)
      0.5%float = Returns fig /\
    color (node fig) = JList (map JStr ncs) /\
    link_color (link fig) = Some (JList (map JStr lcs)) /\
    length lcs = length [0; 1; -1]%Z /\
    (forall k z,
        nth_error [0; 1; -1]%Z k = Some z ->
        exists c,
          nth_error ncs (position (length ["rgba(31, 119, 180, 0.8)"; "magenta"; "#2ca02c"]) z) = Some c /\
          nth_error lcs k = Some (replace c "0.8" (str_0_4 0.5%float))).
Proof.
  split; [conforms_by_reading|]. split; [in_range_by_arithmetic|].
  apply (link_color_is_rewritten_source_color str_0_4 no_network
           sample_document ["rgba(31, 119, 180, 0.8)"; "magenta"; "#2ca02c"] [0; 1; -1]%Z 0.5%float).
  - conforms_by_reading.
  - in_range_by_arithmetic.
Defined.

Lemma out_of_range_source_raises_witness :
  conforms (document ["red"; "blue"] [0; 2]%Z) ["red"; "blue"] [0; 2]%Z /\
  Exists (fun z => ~ in_range (length ["red"; "blue"]) z) [0; 2]%Z /\
  colored_links_sankey str_0_4 no_network
    (Some (document ["red"; "blue"] [0; 2]%Z)) 0.5%float =
  Raises IndexError.
Proof.
  split; [conforms_by_reading|].
  split; [apply Exists_cons_tl, Exists_cons_hd; unfold in_range; simpl; lia|].
  apply (out_of_range_source_raises str_0_4 no_network
           (document ["red"; "blue"] [0; 2]%Z) ["red"; "blue"] [0; 2]%Z
           0.5%float).
  - conforms_by_reading.
  - apply Exists_cons_tl, Exists_cons_hd. unfold in_range. simpl. lia.
Defined.

Lemma magenta_link_gets_opacity_witness :
  conforms sample_document
    ["rgba(31, 119, 180, 0.8)"; "magenta"; "#2ca02c"] [0; 1; -1]%Z /\
  Forall (in_range (length ["rgba(31, 119, 180, 0.8)"; "magenta"; "#2ca02c"]))
         [0; 1; -1]%Z /\
  exists fig lcs,
    colored_links_sankey str_0_4 no_network (Some sample_document)
      0.5%float = Returns fig /\
    link_color (link fig) = Some (JList (map JStr lcs)) /\
    (forall k z,
        nth_error [0; 1; -1]%Z k = Some z ->
        nth_error ["rgba(31, 119, 180, 0.8)"; "magenta"; "#2ca02c"] (position (length ["rgba(31, 119, 180, 0.8)"; "magenta"; "#2ca02c"]) z) = Some "magenta" ->
        nth_error lcs k =
        Some ("rgba(255,0,255, " ++ str_0_4 0.5%float ++ ")")%string).
Proof.
  split; [conforms_by_reading|]. split; [in_range_by_arithmetic|].
  apply (magenta_link_gets_opacity str_0_4 no_network sample_document
           ["rgba(31, 119, 180, 0.8)"; "magenta"; "#2ca02c"] [0; 1; -1]%Z 0.5%float).
  - conforms_by_reading.
  - in_range_by_arithmetic.
Defined.

Lemma color_without_marker_is_inherited_witness :
  conforms sample_document
    ["rgba(31, 119, 180, 0.8)"; "magenta"; "#2ca02c"] [0; 1; -1]%Z /\
  Forall (in_range (length ["rgba(31, 119, 180, 0.8)"; "magenta"; "#2ca02c"]))
         [0; 1; -1]%Z /\
  exists fig lcs,
    colored_links_sankey str_0_4 no_network (Some sample_document)
      0.5%float = Returns fig /\
    link_color (link fig) = Some (JList (map JStr lcs)) /\
    (forall k z c,
        nth_error [0; 1; -1]%Z k = Some z ->
        nth_error ["rgba(31, 119, 180, 0.8)"; "magenta"; "#2ca02c"] (position (length ["rgba(31, 119, 180, 0.8)"; "magenta"; "#2ca02c"]) z) = Some c ->
        c <> "magenta" ->
        occurs "0.8" c = false ->
        nth_error lcs k = Some c).
Proof.
  split; [conforms_by_reading|]. split; [in_range_by_arithmetic|].
  apply (color_without_marker_is_inherited str_0_4 no_network
           sample_document ["rgba(31, 119, 180, 0.8)"; "magenta"; "#2ca02c"] [0; 1; -1]%Z 0.5%float).
  - conforms_by_reading.
  - in_range_by_arithmetic.
Defined.

Lemma marker_opacity_keeps_colors_witness :
  conforms sample_document
    ["rgba(31, 119, 180, 0.8)"; "magenta"; "#2ca02c"] [0; 1; -1]%Z /\
  Forall (in_range (length ["rgba(31, 119, 180, 0.8)"; "magenta"; "#2ca02c"]))
         [0; 1; -1]%Z /\
  str_0_8 0x1.999999999999ap-1%float = "0.8" /\
  exists fig ncs lcs,
    colored_links_sankey str_0_8 no_network (Some sample_document)
      0x1.999999999999ap-1%float = Returns fig /\
    color (node fig) = JList (map JStr ncs) /\
    link_color (link fig) = Some (JList (map JStr lcs)) /\
    (forall k z,
        nth_error [0; 1; -1]%Z k = Some z ->
        exists c,
          nth_error ncs (position (length ["rgba(31, 119, 180, 0.8)"; "magenta"; "#2ca02c"]) z) = Some c /\
          nth_error lcs k = Some c).
Proof.
  split; [conforms_by_reading|]. split; [in_range_by_arithmetic|].
  split; [reflexivity|].
  apply (marker_opacity_keeps_colors str_0_8 no_network sample_document
           ["rgba(31, 119, 180, 0.8)"; "magenta"; "#2ca02c"] [0; 1; -1]%Z 0x1.999999999999ap-1%float).
  - conforms_by_reading.
  - in_range_by_arithmetic.
  - reflexivity.
Defined.

Lemma float_source_raises_type_error_witness :
  field (JDict [("data",
                 JList [JDict [("node",
                                JDict [("color", JList (map JStr ["red"]))]);
                               ("link",
                                JDict [("source",
                                        JList (map JInt [0]%Z ++
                                               JFloat 1%float :: []))])]])])
        "node" "color" = Returns (JList (map JStr ["red"])) /\
  field (JDict [("data",
                 JList [JDict [("node",
                                JDict [("color", JList (map JStr ["red"]))]);
                               ("link",
                                JDict [("source",
                                        JList (map JInt [0]%Z ++
                                               JFloat 1%float :: []))])]])])
        "link" "source" =
  Returns (JList (map JInt [0]%Z ++ JFloat 1%float :: [])) /\
  Forall (in_range (length ["red"])) [0]%Z /\
  colored_links_sankey str_0_4 no_network
    (Some (JDict [("data",
                   JList [JDict [("node",
                                  JDict [("color",
                                          JList (map JStr ["red"]))]);
                                 ("link",
                                  JDict [("source",
                                          JList (map JInt [0]%Z ++
                                                 JFloat 1%float :: []))])]])]))
    0.5%float =
  Raises TypeError.
Proof.
  split; [reflexivity|]. split; [reflexivity|].
  split; [in_range_by_arithmetic|].
  apply (float_source_raises_type_error str_0_4 no_network _ ["red"] [0]%Z
           1%float [] 0.5%float).
  - reflexivity.
  - reflexivity.
  - in_range_by_arithmetic.
Defined.

Lemma unreadable_field_raises_witness :
  In ("link", "value")
     [("node", "label"); ("node", "color"); ("link", "source");
      ("link", "target"); ("link", "value"); ("link", "label")] /\
  field (JDict [("layout", JDict [])]) "link" "value" =
  Raises (KeyError (KStr "data")) /\
  (exists e',
      colored_links_sankey str_0_4 no_network
        (Some (JDict [("layout", JDict [])])) 0.5%float = Raises e') /\
  (exists e',
      styled_sankey no_network (Some (JDict [("layout", JDict [])])) =
      Raises e').
Proof.
  split; [simpl; tauto|]. split; [reflexivity|].
  apply (unreadable_field_raises str_0_4 no_network
           (JDict [("layout", JDict [])]) 0.5%float "link" "value"
           (KeyError (KStr "data"))).
  - simpl. tauto.
  - reflexivity.
Defined.


End EnergyFacts.
